(** * Image Builder resources of the AWS provider: image and container recipe

    A shallow embedding of [resource_aws_imagebuilder_image.go] and
    [resource_aws_imagebuilder_container_recipe.go]: the request and
    response structs of the SDK, the resource data the lifecycle callbacks
    mutate, the callbacks themselves (Create, Read, Update, Delete) and the
    expand / flatten helpers, followed by the properties of the
    specification.

    Conventions.  A Go pointer [*T] is an [option T] ([None] is nil); a
    slice is an [option (list T)] so that the nil slice and the empty slice
    stay apart; a [map[string]T] is an [option (gmap string T)] where the
    nil map matters and a [gmap string T] otherwise; [interface{}] is the
    type [value]; [error] is [option error] ([None] is nil). *)

From Stdlib Require Import ZArith.
From stdpp Require Import base option list strings pretty gmap fin_maps.

Set Warnings "-register-all".
Local Open Scope string_scope.

(** ** Dynamic values *)

(** The values of type [interface{}] the two files read from and write to
    the resource data. *)
Inductive value : Type :=
| VNil                                    (* the nil interface *)
| VString (s : string)
| VBool (b : bool)
| VInt (n : Z)
| VStringPtr (p : option string)          (* *string *)
| VBoolPtr (p : option bool)              (* *bool *)
| VStringMap (m : gmap string string)     (* map[string]string *)
| VList (l : option (list value))         (* []interface{} *)
| VMap (m : option (gmap string value)).  (* map[string]interface{} *)

(** [reflect.DeepEqual] on these values (a nil slice differs from an empty
    one, as in Go). *)
Fixpoint DeepEqual (a b : value) {struct a} : bool :=
  match a, b with
  | VNil, VNil => true
  | VString s, VString t => bool_decide (s = t)
  | VBool s, VBool t => bool_decide (s = t)
  | VInt s, VInt t => bool_decide (s = t)
  | VStringPtr s, VStringPtr t => bool_decide (s = t)
  | VBoolPtr s, VBoolPtr t => bool_decide (s = t)
  | VStringMap s, VStringMap t => bool_decide (s = t)
  | VList None, VList None => true
  | VList (Some l), VList (Some k) =>
      (fix go (l k : list value) : bool :=
         match l, k with
         | [], [] => true
         | x :: l, y :: k => DeepEqual x y && go l k
         | _, _ => false
         end) l k
  | VMap None, VMap None => true
  | VMap (Some m), VMap (Some n) =>
      map_fold (fun _ (c : bool) acc => c && acc) true
        (merge (fun o1 o2 =>
                  match o1, o2 with
                  | Some x, Some y => Some (DeepEqual x y)
                  | None, None => None
                  | _, _ => Some false
                  end) m n)
  | _, _ => false
  end.

(** [len] of a slice: a nil slice has length 0. *)
Definition len {A} (s : option (list A)) : nat :=
  match s with
  | None => 0
  | Some l => length l
  end.

(** [append(s, x)]: appending to the nil slice allocates. *)
Definition append {A} (s : option (list A)) (x : A) : option (list A) :=
  match s with
  | None => Some [x]
  | Some l => Some (l ++ [x])%list
  end.

(** [aws.StringValue]: the empty string for a nil pointer. *)
Definition StringValue (p : option string) : string :=
  match p with
  | None => ""
  | Some s => s
  end.

(** ** Errors *)

(** Go errors as the two files see them: an SDK error with a code, a plain
    message, and [fmt.Errorf] with the verb [%w], which keeps the wrapped
    error reachable for [errors.As]. *)
Inductive error : Type :=
| awserr (code message : string)
| errorString (msg : string)
| wrapError (msg : string) (err : error).

Definition ErrCodeResourceNotFoundException : string :=
  "ResourceNotFoundException".

(** [tfawserr.ErrCodeEquals]: unwrap down to an SDK error and compare its
    code; false on nil. *)
Fixpoint errCodeIs (e : error) (code : string) : bool :=
  match e with
  | awserr c _ => bool_decide (c = code)
  | errorString _ => false
  | wrapError _ e' => errCodeIs e' code
  end.

Definition ErrCodeEquals (err : option error) (code : string) : bool :=
  match err with
  | None => false
  | Some e => errCodeIs e code
  end.

(** ** SDK structs (package imagebuilder), the fields these files use *)

Definition Duration := Z.                    (* nanoseconds *)
Definition Minute : Duration := (60 * 1000000000)%Z.

Definition Tags := option (gmap string (option string)).  (* map[string]*string *)

Record TargetContainerRepository := {
  tcr_RepositoryName : option string;
  tcr_Service : option string;
}.

Record ComponentConfiguration := {
  cc_ComponentArn : option string;
}.

Record ImageTestsConfiguration := {
  itc_ImageTestsEnabled : option bool;
  itc_TimeoutMinutes : option Z;
}.

Record Ami := {
  ami_AccountId : option string;
  ami_Description : option string;
  ami_Image : option string;
  ami_Name : option string;
  ami_Region : option string;
}.

Record Container := {
  ctr_ImageUris : option (list (option string));
  ctr_Region : option string;
}.

Record OutputResources := {
  or_Amis : option (list (option Ami));
  or_Containers : option (list (option Container));
}.

Record ContainerRecipe := {
  cr_Arn : option string;
  cr_Components : option (list (option ComponentConfiguration));
  cr_ContainerType : option string;
  cr_DateCreated : option string;
  cr_Description : option string;
  cr_DockerfileTemplateData : option string;
  cr_Encrypted : option bool;
  cr_KmsKeyId : option string;
  cr_Name : option string;
  cr_Owner : option string;
  cr_ParentImage : option string;
  cr_Platform : option string;
  cr_Tags : Tags;
  cr_TargetRepository : option TargetContainerRepository;
  cr_Version : option string;
  cr_WorkingDirectory : option string;
}.

Record DistributionConfiguration := { dc_Arn : option string }.
Record ImageRecipe := { ir_Arn : option string }.
Record InfrastructureConfiguration := { ic_Arn : option string }.

Record Image := {
  img_Arn : option string;
  img_ContainerRecipe : option ContainerRecipe;
  img_DateCreated : option string;
  img_DistributionConfiguration : option DistributionConfiguration;
  img_EnhancedImageMetadataEnabled : option bool;
  img_ImageRecipe : option ImageRecipe;
  img_ImageTestsConfiguration : option ImageTestsConfiguration;
  img_InfrastructureConfiguration : option InfrastructureConfiguration;
  img_Name : option string;
  img_OsVersion : option string;
  img_OutputResources : option OutputResources;
  img_Platform : option string;
  img_Tags : Tags;
  img_Version : option string;
}.

Record CreateImageInput := {
  cii_ClientToken : option string;
  cii_ContainerRecipeArn : option string;
  cii_DistributionConfigurationArn : option string;
  cii_EnhancedImageMetadataEnabled : option bool;
  cii_ImageRecipeArn : option string;
  cii_ImageTestsConfiguration : option ImageTestsConfiguration;
  cii_InfrastructureConfigurationArn : option string;
  cii_Tags : Tags;
}.

Record CreateImageOutput := {
  cio_ImageBuildVersionArn : option string;
}.

Record GetImageInput := { gii_ImageBuildVersionArn : option string }.
Record GetImageOutput := { gio_Image : option Image }.
Record DeleteImageInput := { dii_ImageBuildVersionArn : option string }.

Record CreateContainerRecipeInput := {
  ccri_ClientToken : option string;
  ccri_Components : option (list (option ComponentConfiguration));
  ccri_ContainerType : option string;
  ccri_Description : option string;
  ccri_DockerfileTemplateData : option string;
  ccri_DockerfileTemplateUri : option string;
  ccri_ImageOsVersionOverride : option string;
  ccri_KmsKeyId : option string;
  ccri_Name : option string;
  ccri_ParentImage : option string;
  ccri_PlatformOverride : option string;
  ccri_SemanticVersion : option string;
  ccri_Tags : Tags;
  ccri_TargetRepository : option TargetContainerRepository;
  ccri_WorkingDirectory : option string;
}.

Record CreateContainerRecipeOutput := {
  ccro_ContainerRecipeArn : option string;
}.

Record GetContainerRecipeInput := { gcri_ContainerRecipeArn : option string }.
Record GetContainerRecipeOutput := { gcro_ContainerRecipe : option ContainerRecipe }.
Record DeleteContainerRecipeInput := { dcri_ContainerRecipeArn : option string }.

(** ** The resource framework (package schema), as far as the callbacks use it *)

Inductive ValueType := TypeBool | TypeInt | TypeString | TypeList | TypeMap | TypeSet.

(** [Elem]: the schema of the elements of a list, set or map: one schema for
    elements of a primitive type, a nested resource for a block. *)
Inductive Elem (S : Type) : Type :=
| ElemSchema (s : S)
| ElemResource (fields : gmap string S).
Arguments ElemSchema {S} s.
Arguments ElemResource {S} fields.

(** [schema.Schema], without [ValidateFunc] and [ExactlyOneOf]; 0 items
    stands for no bound. *)
Inductive Schema : Type := mkSchema {
  sType : ValueType;
  sRequired : bool;
  sOptional : bool;
  sComputed : bool;
  sForceNew : bool;
  sDefault : option value;
  sMinItems : nat;
  sMaxItems : nat;
  sElem : option (Elem Schema);
}.

Definition zeroValue (t : ValueType) : value :=
  match t with
  | TypeBool => VBool false
  | TypeInt => VInt 0
  | TypeString => VString ""
  | TypeList => VList (Some [])
  | TypeMap => VMap (Some ∅)
  | TypeSet => VList (Some [])
  end.

(** Whether a value is the zero value of its type: what [GetOk] tests. *)
Definition isZero (v : value) : bool :=
  match v with
  | VNil => true
  | VString s => bool_decide (s = "")
  | VBool b => negb b
  | VInt n => bool_decide (n = 0%Z)
  | VStringPtr p => bool_decide (p = None)
  | VBoolPtr p => bool_decide (p = None)
  | VStringMap m => bool_decide (m = ∅)
  | VList l => Nat.eqb (len l) 0
  | VMap None => true
  | VMap (Some m) => Nat.eqb (size m) 0
  end.

Record ResourceTimeout := {
  rtCreate : option Duration;
  rtRead : option Duration;
  rtUpdate : option Duration;
  rtDelete : option Duration;
  rtDefault : option Duration;
}.

Inductive TimeoutKey := TimeoutCreate | TimeoutRead | TimeoutUpdate | TimeoutDelete.

(** [*schema.ResourceData]: the object every callback receives and mutates. *)
Record ResourceData := {
  rdSchema : gmap string Schema;
  rdId : string;
  rdIsNew : bool;
  rdState : gmap string value;       (* prior state: the old side of GetChange *)
  rdConfig : gmap string value;      (* planned values: Get, GetOk, the new side *)
  rdSet : gmap string value;         (* what the callbacks wrote with Set *)
  rdTimeouts : option ResourceTimeout;
}.

Definition rd_SetId (v : string) (d : ResourceData) : ResourceData :=
  {| rdSchema := rdSchema d; rdId := v; rdIsNew := rdIsNew d;
     rdState := rdState d; rdConfig := rdConfig d; rdSet := rdSet d;
     rdTimeouts := rdTimeouts d |}.

Definition rd_Set (key : string) (v : value) (d : ResourceData) : ResourceData :=
  {| rdSchema := rdSchema d; rdId := rdId d; rdIsNew := rdIsNew d;
     rdState := rdState d; rdConfig := rdConfig d;
     rdSet := <[key := v]> (rdSet d);
     rdTimeouts := rdTimeouts d |}.

(** The value of an attribute that no level holds: the schema's default,
    else the zero value of the schema's type. *)
Definition schemaValue (sch : gmap string Schema) (key : string) : value :=
  match sch !! key with
  | Some sc =>
      match sDefault sc with
      | Some v => v
      | None => zeroValue (sType sc)
      end
  | None => VNil
  end.

Definition rd_Get (key : string) (d : ResourceData) : value :=
  match rdConfig d !! key with
  | Some v => v
  | None => schemaValue (rdSchema d) key
  end.

Definition rd_GetOk (key : string) (d : ResourceData) : value * bool :=
  let v := rd_Get key d in (v, negb (isZero v)).

Definition rd_GetChange (key : string) (d : ResourceData) : value * value :=
  (match rdState d !! key with
   | Some v => v
   | None => schemaValue (rdSchema d) key
   end,
   rd_Get key d).

Definition rd_HasChange (key : string) (d : ResourceData) : bool :=
  let '(o, n) := rd_GetChange key d in negb (DeepEqual o n).

(** [ResourceData.Timeout]: the configured value, else the resource's
    default, else the framework's 20 minutes. *)
Definition rd_Timeout (key : TimeoutKey) (d : ResourceData) : Duration :=
  let defaultTimeout := (20 * Minute)%Z in
  match rdTimeouts d with
  | None => defaultTimeout
  | Some t =>
      let timeout :=
        match key with
        | TimeoutCreate => rtCreate t
        | TimeoutRead => rtRead t
        | TimeoutUpdate => rtUpdate t
        | TimeoutDelete => rtDelete t
        end in
      match timeout with
      | Some v => v
      | None =>
          match rtDefault t with
          | Some v => v
          | None => defaultTimeout
          end
      end
  end.

(** ** The remote service and the trace of calls *)

(** Every call that leaves the provider: the six API operations of the two
    resources, the tag helper and the waiter. *)
Inductive call : Type :=
| CreateImageCall (input : CreateImageInput)
| GetImageCall (input : GetImageInput)
| DeleteImageCall (input : DeleteImageInput)
| CreateContainerRecipeCall (input : CreateContainerRecipeInput)
| GetContainerRecipeCall (input : GetContainerRecipeInput)
| DeleteContainerRecipeCall (input : DeleteContainerRecipeInput)
| UpdateTagsCall (identifier : string) (oldTags newTags : value)
| ImageStatusAvailableCall (imageBuildVersionArn : string) (timeout : Duration).

(** A call that changes the remote side. *)
Definition mutating (c : call) : bool :=
  match c with
  | GetImageCall _ | GetContainerRecipeCall _ | ImageStatusAvailableCall _ _ => false
  | _ => true
  end.

(** [*imagebuilder.Imagebuilder]: the service is opaque, so each operation
    answers as a function of the calls made so far and of its input. *)
Record Imagebuilder := {
  CreateImage : list call → CreateImageInput → option CreateImageOutput * option error;
  GetImage : list call → GetImageInput → option GetImageOutput * option error;
  DeleteImage : list call → DeleteImageInput → option error;
  CreateContainerRecipe :
    list call → CreateContainerRecipeInput → option CreateContainerRecipeOutput * option error;
  GetContainerRecipe :
    list call → GetContainerRecipeInput → option GetContainerRecipeOutput * option error;
  DeleteContainerRecipe : list call → DeleteContainerRecipeInput → option error;
}.

(** The packages the two files import from this provider and from the
    framework whose code is elsewhere: tags, waiter, the expand and flatten
    helpers of sibling files, and the unique id generator. *)
Class Collaborators := {
  KeyValueTags : Type;
  IgnoreConfig : Type;
  keyvaluetags_New : option (gmap string value) → KeyValueTags;
  ImagebuilderKeyValueTags : Tags → KeyValueTags;
  IgnoreAws : KeyValueTags → KeyValueTags;
  IgnoreConfigOf : option IgnoreConfig → KeyValueTags → KeyValueTags;
  ImagebuilderTags : KeyValueTags → Tags;
  KeyValueTags_Map : KeyValueTags → gmap string string;
  ImagebuilderUpdateTags :
    Imagebuilder → list call → string → value → value → option error;
  ImageStatusAvailable :
    Imagebuilder → list call → string → Duration → option Image * option error;
  expandImageBuilderComponentConfigurations :
    option (list value) → option (list (option ComponentConfiguration));
  flattenImageBuilderComponentConfigurations :
    option (list (option ComponentConfiguration)) → option (list value);
  expandImageBuilderImageTestConfiguration :
    option (gmap string value) → option ImageTestsConfiguration;
  flattenImageBuilderImageTestsConfiguration :
    option ImageTestsConfiguration → option (gmap string value);
  flattenStringSet : option (list (option string)) → value;
  uniqueIdOf : nat → string;
}.

(** [*AWSClient], the [meta] argument of the callbacks. *)
Record AWSClient `{Collaborators} := {
  imagebuilderconn : Imagebuilder;
  IgnoreTagsConfig : option IgnoreConfig;
}.

(** ** Running a callback *)

(** The state a callback runs in: the resource data it was handed, the calls
    made so far, and the number of unique ids drawn so far. *)
Record State := {
  st_d : ResourceData;
  st_calls : list call;
  st_ids : nat;
}.

(** A Go function either returns or panics (failed type assertion, index out
    of range). *)
Inductive outcome (A : Type) : Type :=
| Returned (a : A) (s : State)
| Panicked.
Arguments Returned {A} a s.
Arguments Panicked {A}.

Definition M (A : Type) : Type := State → outcome A.

Definition ret {A} (a : A) : M A := fun s => Returned a s.

Definition bind {A B} (m : M A) (k : A → M B) : M B :=
  fun s =>
    match m s with
    | Returned a s' => k a s'
    | Panicked => Panicked
    end.

Definition panic {A} : M A := fun _ => Panicked.

Notation "'let*' x := m 'in' k" := (bind m (fun x => k))
  (at level 10, x pattern, m at level 100, k at level 200).
Notation "m >> k" := (bind m (fun _ => k))
  (at level 100, k at level 200, right associativity).

Definition setData (d : ResourceData) (s : State) : State :=
  {| st_d := d; st_calls := st_calls s; st_ids := st_ids s |}.

Definition addCall (c : call) (s : State) : State :=
  {| st_d := st_d s; st_calls := (st_calls s ++ [c])%list; st_ids := st_ids s |}.

Definition nextId (s : State) : State :=
  {| st_d := st_d s; st_calls := st_calls s; st_ids := S (st_ids s) |}.

Definition withData (f : ResourceData → ResourceData) : M unit :=
  fun s => Returned tt (setData (f (st_d s)) s).

Definition readData {A} (f : ResourceData → A) : M A :=
  fun s => Returned (f (st_d s)) s.

Definition d_Id : M string := readData rdId.
Definition d_SetId (v : string) : M unit := withData (rd_SetId v).
Definition d_Set (key : string) (v : value) : M unit := withData (rd_Set key v).
Definition d_Get (key : string) : M value := readData (rd_Get key).
Definition d_GetOk (key : string) : M (value * bool) := readData (rd_GetOk key).
Definition d_IsNewResource : M bool := readData rdIsNew.
Definition d_HasChange (key : string) : M bool := readData (rd_HasChange key).
Definition d_GetChange (key : string) : M (value * value) := readData (rd_GetChange key).
Definition d_Timeout (key : TimeoutKey) : M Duration := readData (rd_Timeout key).

(** Issue a call: the answer depends on the calls so far, and the call is
    appended to the trace. *)
Definition issue {A} (c : call) (answer : list call → A) : M A :=
  fun s => Returned (answer (st_calls s)) (addCall c s).

(** [resource.UniqueId()]. *)
Definition UniqueId `{Collaborators} : M string :=
  fun s => Returned (uniqueIdOf (st_ids s)) (nextId s).

(** Type assertions [v.(T)]: a panic when the dynamic type differs. *)
Definition assertString (v : value) : M string :=
  match v with VString s => ret s | _ => panic end.
Definition assertBool (v : value) : M bool :=
  match v with VBool b => ret b | _ => panic end.
Definition assertList (v : value) : M (option (list value)) :=
  match v with VList l => ret l | _ => panic end.
Definition assertMap (v : value) : M (option (gmap string value)) :=
  match v with VMap m => ret m | _ => panic end.

(** [s[0]]: a panic on an empty or nil slice. *)
Definition index0 {A} (s : option (list A)) : M A :=
  match s with
  | Some (x :: _) => ret x
  | _ => panic
  end.

(** [fmt.Errorf(format, ..., err)] with [%w] last and [fmt.Errorf(msg)]. *)
Definition Errorf_w (prefix : string) (err : error) : error := wrapError prefix err.
Definition Errorf (msg : string) : error := errorString msg.

(** [schema.Resource]: the schema and the timeouts; the four callbacks are
    the functions defined below. *)
Record Resource := {
  rSchema : gmap string Schema;
  rTimeouts : option ResourceTimeout;
}.

Definition DefaultTimeout (t : Duration) : option Duration := Some t.

Definition attr (t : ValueType) (required optional computed forceNew : bool)
    (dflt : option value) : Schema :=
  {| sType := t; sRequired := required; sOptional := optional;
     sComputed := computed; sForceNew := forceNew; sDefault := dflt;
     sMinItems := 0; sMaxItems := 0; sElem := None |}.

(** A list or set attribute with its [Elem], [MinItems] and [MaxItems]. *)
Definition withElem (e : Elem Schema) (minItems maxItems : nat) (sc : Schema) : Schema :=
  {| sType := sType sc; sRequired := sRequired sc; sOptional := sOptional sc;
     sComputed := sComputed sc; sForceNew := sForceNew sc; sDefault := sDefault sc;
     sMinItems := minItems; sMaxItems := maxItems; sElem := Some e |}.

(** [tagsSchema()]: an optional map of strings. *)
Definition tagsSchema : Schema := attr TypeMap false true false false None.

(** * resource_aws_imagebuilder_container_recipe.go *)

Section ContainerRecipe.
Context `{Collaborators}.

Definition resourceAwsImageBuilderContainerRecipe : Resource :=
  {| rSchema := list_to_map [
       ("arn", attr TypeString false false true false None);
       ("component",
          withElem (ElemResource (list_to_map [
            ("component_arn", attr TypeString true false false false None)
          ])) 1 0 (attr TypeList true false false true None));
       ("container_type", attr TypeString true false false true None);
       ("date_created", attr TypeString false false true false None);
       ("description", attr TypeString false true false false None);
       ("dockerfile_template_data", attr TypeString false true true true None);
       ("dockerfile_template_uri", attr TypeString false true false true None);
       ("encrypted", attr TypeBool false false true false None);
       ("image_os_version_override", attr TypeString false true false true None);
       ("kms_key_id", attr TypeString false true false true None);
       ("name", attr TypeString true false false true None);
       ("owner", attr TypeString false false true false None);
       ("parent_image", attr TypeString true false false true None);
       ("platform", attr TypeString false false true false None);
       ("platform_override", attr TypeString false true false true None);
       ("semantic_version", attr TypeString true false false true None);
       ("tags", tagsSchema);
       ("target_repository",
          withElem (ElemResource (list_to_map [
            ("repository_name", attr TypeString true false false true None);
            ("service", attr TypeString true false false true None)
          ])) 0 1 (attr TypeList true false false true None));
       ("working_directory", attr TypeString false true false true None)
     ];
     rTimeouts := None |}.

Definition expandImageBuilderTargetContainerRepository
    (tfMap : option (gmap string value)) : option TargetContainerRepository :=
  match tfMap with
  | None => None
  | Some tfMap =>
      let RepositoryName :=
        match tfMap !! "repository_name" with
        | Some (VString v) => if bool_decide (v ≠ "") then Some v else None
        | _ => None
        end in
      let Service :=
        match tfMap !! "service" with
        | Some (VString v) => if bool_decide (v ≠ "") then Some v else None
        | _ => None
        end in
      Some {| tcr_RepositoryName := RepositoryName; tcr_Service := Service |}
  end.

Definition flattenImageBuilderTargetContainerRepository
    (apiObject : option TargetContainerRepository) : option (gmap string value) :=
  match apiObject with
  | None => None
  | Some apiObject =>
      let tfMap : gmap string value := ∅ in
      let tfMap :=
        match tcr_RepositoryName apiObject with
        | Some _ as v => <["repository_name" := VString (StringValue v)]> tfMap
        | None => tfMap
        end in
      let tfMap :=
        match tcr_Service apiObject with
        | Some _ as v => <["service" := VString (StringValue v)]> tfMap
        | None => tfMap
        end in
      Some tfMap
  end.

(** Lines 159-199 of Create: the request built from the configuration. *)
Definition containerRecipeCreateInput : M CreateContainerRecipeInput :=
  let* token := UniqueId in
  let* (v, ok) := d_GetOk "component" in
  let* Components :=
    (if ok then
       let* l := assertList v in
       if Nat.ltb 0 (len l)
       then ret (expandImageBuilderComponentConfigurations l)
       else ret None
     else ret None) in
  let* (v, ok) := d_GetOk "container_type" in
  let* ContainerType := (if ok then let* s := assertString v in ret (Some s) else ret None) in
  let* (v, ok) := d_GetOk "description" in
  let* Description := (if ok then let* s := assertString v in ret (Some s) else ret None) in
  let* (v, ok) := d_GetOk "dockerfile_template_data" in
  let* DockerfileTemplateData := (if ok then let* s := assertString v in ret (Some s) else ret None) in
  let* (v, ok) := d_GetOk "name" in
  let* Name := (if ok then let* s := assertString v in ret (Some s) else ret None) in
  let* (v, ok) := d_GetOk "parent_image" in
  let* ParentImage := (if ok then let* s := assertString v in ret (Some s) else ret None) in
  let* (v, ok) := d_GetOk "tags" in
  let* Tags :=
    (if ok then
       let* m := assertMap v in
       ret (ImagebuilderTags (IgnoreAws (keyvaluetags_New m)))
     else ret None) in
  let* (v, ok) := d_GetOk "semantic_version" in
  let* SemanticVersion := (if ok then let* s := assertString v in ret (Some s) else ret None) in
  let* (v, ok) := d_GetOk "target_repository" in
  let* TargetRepository :=
    (if ok then
       let* l := assertList v in
       let* x := index0 l in
       let* m := assertMap x in
       ret (expandImageBuilderTargetContainerRepository m)
     else ret None) in
  let* (v, ok) := d_GetOk "working_directory" in
  let* WorkingDirectory := (if ok then let* s := assertString v in ret (Some s) else ret None) in
  ret {| ccri_ClientToken := Some token;
          ccri_Components := Components;
          ccri_ContainerType := ContainerType;
          ccri_Description := Description;
          ccri_DockerfileTemplateData := DockerfileTemplateData;
          ccri_DockerfileTemplateUri := None;
          ccri_ImageOsVersionOverride := None;
          ccri_KmsKeyId := None;
          ccri_Name := Name;
          ccri_ParentImage := ParentImage;
          ccri_PlatformOverride := None;
          ccri_SemanticVersion := SemanticVersion;
          ccri_Tags := Tags;
          ccri_TargetRepository := TargetRepository;
          ccri_WorkingDirectory := WorkingDirectory |}.

Definition resourceAwsImageBuilderContainerRecipeRead (meta : AWSClient) : M (option error) :=
  let conn := imagebuilderconn meta in
  let ignoreTagsConfig := IgnoreTagsConfig meta in
  let* id := d_Id in
  let input := {| gcri_ContainerRecipeArn := Some id |} in
  let* (output, err) := issue (GetContainerRecipeCall input)
                     (fun h => GetContainerRecipe conn h input) in
  let* isNew := d_IsNewResource in
  if negb isNew && ErrCodeEquals err ErrCodeResourceNotFoundException then
    d_SetId "" >>
    ret None
  else
    match err with
    | Some e =>
        let* id := d_Id in
        ret (Some (Errorf_w
          ("error getting Image Builder Container Recipe (" ++ id ++ "): ") e))
    | None =>
        match output ≫= gcro_ContainerRecipe with
        | None =>
            let* id := d_Id in
            ret (Some (Errorf
              ("error getting Image Builder Container Recipe (" ++ id ++ "): empty response")))
        | Some containerRecipe =>
            d_Set "arn" (VStringPtr (cr_Arn containerRecipe)) >>
            d_Set "component"
              (VList (flattenImageBuilderComponentConfigurations (cr_Components containerRecipe))) >>
            d_Set "container_type" (VStringPtr (cr_ContainerType containerRecipe)) >>
            d_Set "date_created" (VStringPtr (cr_DateCreated containerRecipe)) >>
            d_Set "description" (VStringPtr (cr_Description containerRecipe)) >>
            d_Set "dockerfile_template_data"
              (VStringPtr (cr_DockerfileTemplateData containerRecipe)) >>
            d_Set "name" (VStringPtr (cr_Name containerRecipe)) >>
            d_Set "encrypted" (VBoolPtr (cr_Encrypted containerRecipe)) >>
            d_Set "kms_key_id" (VStringPtr (cr_KmsKeyId containerRecipe)) >>
            d_Set "owner" (VStringPtr (cr_Owner containerRecipe)) >>
            d_Set "parent_image" (VStringPtr (cr_ParentImage containerRecipe)) >>
            d_Set "platform" (VStringPtr (cr_Platform containerRecipe)) >>
            d_Set "tags"
              (VStringMap (KeyValueTags_Map (IgnoreConfigOf ignoreTagsConfig
                 (IgnoreAws (ImagebuilderKeyValueTags (cr_Tags containerRecipe)))))) >>
            d_Set "semantic_version" (VStringPtr (cr_Version containerRecipe)) >>
            d_Set "target_repository"
              (VList (Some [VMap (flattenImageBuilderTargetContainerRepository
                                    (cr_TargetRepository containerRecipe))])) >>
            d_Set "working_directory" (VStringPtr (cr_WorkingDirectory containerRecipe)) >>
            ret None
        end
    end.

Definition resourceAwsImageBuilderContainerRecipeCreate (meta : AWSClient) : M (option error) :=
  let conn := imagebuilderconn meta in
  let* input := containerRecipeCreateInput in
  let* (output, err) := issue (CreateContainerRecipeCall input)
                     (fun h => CreateContainerRecipe conn h input) in
  match err with
  | Some e =>
      ret (Some (Errorf_w "error creating Image Builder Container Recipe: " e))
  | None =>
      match output with
      | None =>
          ret (Some (Errorf "error creating Image Builder Container Recipe: empty response"))
      | Some output =>
          d_SetId (StringValue (ccro_ContainerRecipeArn output)) >>
          resourceAwsImageBuilderContainerRecipeRead meta
      end
  end.

Definition resourceAwsImageBuilderContainerRecipeUpdate (meta : AWSClient) : M (option error) :=
  let conn := imagebuilderconn meta in
  let* changed := d_HasChange "tags" in
  let* failed :=
    (if changed then
       let* (o, n) := d_GetChange "tags" in
       let* id := d_Id in
       let* err := issue (UpdateTagsCall id o n) (fun h => ImagebuilderUpdateTags conn h id o n) in
       match err with
       | Some e =>
           let* id := d_Id in
           ret (Some (Errorf_w
             ("error updating tags for Image Builder Image Recipe (" ++ id ++ "): ") e))
       | None => ret None
       end
     else ret None) in
  match failed with
  | Some e => ret (Some e)
  | None => resourceAwsImageBuilderContainerRecipeRead meta
  end.

Definition resourceAwsImageBuilderContainerRecipeDelete (meta : AWSClient) : M (option error) :=
  let conn := imagebuilderconn meta in
  let* id := d_Id in
  let input := {| dcri_ContainerRecipeArn := Some id |} in
  let* err := issue (DeleteContainerRecipeCall input)
          (fun h => DeleteContainerRecipe conn h input) in
  if ErrCodeEquals err ErrCodeResourceNotFoundException then
    ret None
  else
    match err with
    | Some e =>
        let* id := d_Id in
        ret (Some (Errorf_w
          ("error deleting Image Builder Image Recipe (" ++ id ++ "): ") e))
    | None => ret None
    end.

End ContainerRecipe.

(** * resource_aws_imagebuilder_image.go *)

Section ImageResource.
Context `{Collaborators}.

Definition resourceAwsImageBuilderImage : Resource :=
  {| rSchema := list_to_map [
       ("arn", attr TypeString false false true false None);
       ("container_recipe_arn", attr TypeString false true false true None);
       ("date_created", attr TypeString false false true false None);
       ("distribution_configuration_arn", attr TypeString false true false true None);
       ("enhanced_image_metadata_enabled",
          attr TypeBool false true false true (Some (VBool true)));
       ("image_recipe_arn", attr TypeString false true false true None);
       ("image_tests_configuration",
          withElem (ElemResource (list_to_map [
            ("image_tests_enabled",
               attr TypeBool false true false true (Some (VBool true)));
            ("timeout_minutes", attr TypeInt false true false true (Some (VInt 720)))
          ])) 0 1 (attr TypeList false true true true None));
       ("infrastructure_configuration_arn", attr TypeString true false false true None);
       ("name", attr TypeString false false true false None);
       ("os_version", attr TypeString false false true false None);
       ("output_resources",
          withElem (ElemResource (list_to_map [
            ("amis",
               withElem (ElemResource (list_to_map [
                 ("account_id", attr TypeString false false true false None);
                 ("description", attr TypeString false false true false None);
                 ("image", attr TypeString false false true false None);
                 ("name", attr TypeString false false true false None);
                 ("region", attr TypeString false false true false None)
               ])) 0 0 (attr TypeSet false false true false None));
            ("containers",
               withElem (ElemResource (list_to_map [
                 ("image_uris",
                    withElem (ElemSchema (attr TypeString false false false false None))
                      0 0 (attr TypeSet false false true false None));
                 ("region", attr TypeString false false true false None)
               ])) 0 0 (attr TypeSet false false true false None))
          ])) 0 0 (attr TypeList false false true false None));
       ("platform", attr TypeString false false true false None);
       ("tags", tagsSchema);
       ("version", attr TypeString false false true false None)
     ];
     rTimeouts := Some {| rtCreate := DefaultTimeout (60 * Minute)%Z;
                          rtRead := None; rtUpdate := None; rtDelete := None;
                          rtDefault := None |} |}.

Definition flattenImageBuilderAmi (apiObject : option Ami) : option (gmap string value) :=
  match apiObject with
  | None => None
  | Some apiObject =>
      let tfMap : gmap string value := ∅ in
      let tfMap :=
        match ami_AccountId apiObject with
        | Some _ as v => <["account_id" := VString (StringValue v)]> tfMap
        | None => tfMap
        end in
      let tfMap :=
        match ami_Description apiObject with
        | Some _ as v => <["description" := VString (StringValue v)]> tfMap
        | None => tfMap
        end in
      let tfMap :=
        match ami_Image apiObject with
        | Some _ as v => <["image" := VString (StringValue v)]> tfMap
        | None => tfMap
        end in
      let tfMap :=
        match ami_Name apiObject with
        | Some _ as v => <["name" := VString (StringValue v)]> tfMap
        | None => tfMap
        end in
      let tfMap :=
        match ami_Region apiObject with
        | Some _ as v => <["region" := VString (StringValue v)]> tfMap
        | None => tfMap
        end in
      Some tfMap
  end.

Definition flattenImageBuilderAmis (apiObjects : option (list (option Ami)))
    : option (list value) :=
  if Nat.eqb (len apiObjects) 0 then None
  else
    foldl (fun (tfList : option (list value)) (apiObject : option Ami) =>
             match apiObject with
             | None => tfList
             | Some _ => append tfList (VMap (flattenImageBuilderAmi apiObject))
             end)
          None (default [] apiObjects).

Definition flattenImageBuilderContainer (apiObject : option Container)
    : option (gmap string value) :=
  match apiObject with
  | None => None
  | Some apiObject =>
      let tfMap : gmap string value := ∅ in
      let tfMap :=
        match ctr_ImageUris apiObject with
        | Some _ => <["image_uris" := flattenStringSet (ctr_ImageUris apiObject)]> tfMap
        | None => tfMap
        end in
      let tfMap :=
        match ctr_Region apiObject with
        | Some _ as v => <["region" := VString (StringValue v)]> tfMap
        | None => tfMap
        end in
      Some tfMap
  end.

Definition flattenImageBuilderContainers (apiObjects : option (list (option Container)))
    : option (list value) :=
  if Nat.eqb (len apiObjects) 0 then None
  else
    foldl (fun (tfList : option (list value)) (apiObject : option Container) =>
             match apiObject with
             | None => tfList
             | Some _ => append tfList (VMap (flattenImageBuilderContainer apiObject))
             end)
          None (default [] apiObjects).

Definition flattenImageBuilderOutputResources (apiObject : option OutputResources)
    : option (gmap string value) :=
  match apiObject with
  | None => None
  | Some apiObject =>
      let tfMap : gmap string value := ∅ in
      let tfMap :=
        match or_Amis apiObject with
        | Some _ as v => <["amis" := VList (flattenImageBuilderAmis v)]> tfMap
        | None => tfMap
        end in
      let tfMap :=
        match or_Containers apiObject with
        | Some _ as v => <["containers" := VList (flattenImageBuilderContainers v)]> tfMap
        | None => tfMap
        end in
      Some tfMap
  end.

(** Lines 174-201 of Create: the request built from the configuration. *)
Definition imageCreateInput : M CreateImageInput :=
  let* token := UniqueId in
  let* v := d_Get "enhanced_image_metadata_enabled" in
  let* EnhancedImageMetadataEnabled := assertBool v in
  let* (v, ok) := d_GetOk "container_recipe_arn" in
  let* ContainerRecipeArn := (if ok then let* s := assertString v in ret (Some s) else ret None) in
  let* (v, ok) := d_GetOk "distribution_configuration_arn" in
  let* DistributionConfigurationArn :=
    (if ok then let* s := assertString v in ret (Some s) else ret None) in
  let* (v, ok) := d_GetOk "image_recipe_arn" in
  let* ImageRecipeArn := (if ok then let* s := assertString v in ret (Some s) else ret None) in
  let* (v, ok) := d_GetOk "image_tests_configuration" in
  let* ImageTestsConfiguration :=
    (if ok then
       let* l := assertList v in
       if Nat.ltb 0 (len l) then
         let* x := index0 l in
         match x with
         | VNil => ret None
         | _ =>
             let* m := assertMap x in
             ret (expandImageBuilderImageTestConfiguration m)
         end
       else ret None
     else ret None) in
  let* (v, ok) := d_GetOk "infrastructure_configuration_arn" in
  let* InfrastructureConfigurationArn :=
    (if ok then let* s := assertString v in ret (Some s) else ret None) in
  let* (v, ok) := d_GetOk "tags" in
  let* Tags :=
    (if ok then
       let* m := assertMap v in
       if Nat.ltb 0 (from_option size 0 m)
       then ret (ImagebuilderTags (IgnoreAws (keyvaluetags_New m)))
       else ret None
     else ret None) in
  ret {| cii_ClientToken := Some token;
         cii_ContainerRecipeArn := ContainerRecipeArn;
         cii_DistributionConfigurationArn := DistributionConfigurationArn;
         cii_EnhancedImageMetadataEnabled := Some EnhancedImageMetadataEnabled;
         cii_ImageRecipeArn := ImageRecipeArn;
         cii_ImageTestsConfiguration := ImageTestsConfiguration;
         cii_InfrastructureConfigurationArn := InfrastructureConfigurationArn;
         cii_Tags := Tags |}.

Definition resourceAwsImageBuilderImageRead (meta : AWSClient) : M (option error) :=
  let conn := imagebuilderconn meta in
  let* id := d_Id in
  let input := {| gii_ImageBuildVersionArn := Some id |} in
  let* (output, err) := issue (GetImageCall input) (fun h => GetImage conn h input) in
  let* isNew := d_IsNewResource in
  if negb isNew && ErrCodeEquals err ErrCodeResourceNotFoundException then
    d_SetId "" >>
    ret None
  else
    match err with
    | Some e =>
        let* id := d_Id in
        ret (Some (Errorf_w ("error getting Image Builder Image (" ++ id ++ "): ") e))
    | None =>
        match output ≫= gio_Image with
        | None =>
            let* id := d_Id in
            ret (Some (Errorf
              ("error getting Image Builder Image (" ++ id ++ "): empty response")))
        | Some image =>
            d_Set "arn" (VStringPtr (img_Arn image)) >>
            match img_ContainerRecipe image with
            | Some r => d_Set "container_recipe_arn" (VStringPtr (cr_Arn r))
            | None => ret tt
            end >>
            d_Set "date_created" (VStringPtr (img_DateCreated image)) >>
            match img_DistributionConfiguration image with
            | Some c => d_Set "distribution_configuration_arn" (VStringPtr (dc_Arn c))
            | None => ret tt
            end >>
            d_Set "enhanced_image_metadata_enabled"
              (VBoolPtr (img_EnhancedImageMetadataEnabled image)) >>
            match img_ImageRecipe image with
            | Some r => d_Set "image_recipe_arn" (VStringPtr (ir_Arn r))
            | None => ret tt
            end >>
            match img_ImageTestsConfiguration image with
            | Some _ =>
                d_Set "image_tests_configuration"
                  (VList (Some [VMap (flattenImageBuilderImageTestsConfiguration
                                        (img_ImageTestsConfiguration image))]))
            | None => d_Set "image_tests_configuration" VNil
            end >>
            match img_InfrastructureConfiguration image with
            | Some c => d_Set "infrastructure_configuration_arn" (VStringPtr (ic_Arn c))
            | None => ret tt
            end >>
            d_Set "name" (VStringPtr (img_Name image)) >>
            d_Set "platform" (VStringPtr (img_Platform image)) >>
            d_Set "os_version" (VStringPtr (img_OsVersion image)) >>
            match img_OutputResources image with
            | Some _ =>
                d_Set "output_resources"
                  (VList (Some [VMap (flattenImageBuilderOutputResources
                                        (img_OutputResources image))]))
            | None => d_Set "output_resources" VNil
            end >>
            d_Set "tags"
              (VStringMap (KeyValueTags_Map (IgnoreConfigOf (IgnoreTagsConfig meta)
                 (IgnoreAws (ImagebuilderKeyValueTags (img_Tags image)))))) >>
            d_Set "version" (VStringPtr (img_Version image)) >>
            ret None
        end
    end.

Definition resourceAwsImageBuilderImageCreate (meta : AWSClient) : M (option error) :=
  let conn := imagebuilderconn meta in
  let* input := imageCreateInput in
  let* (output, err) := issue (CreateImageCall input) (fun h => CreateImage conn h input) in
  match err with
  | Some e => ret (Some (Errorf_w "error creating Image Builder Image: " e))
  | None =>
      match output with
      | None => ret (Some (Errorf "error creating Image Builder Image: empty response"))
      | Some output =>
          d_SetId (StringValue (cio_ImageBuildVersionArn output)) >>
          let* id := d_Id in
          let* timeout := d_Timeout TimeoutCreate in
          let* (_, err) := issue (ImageStatusAvailableCall id timeout)
                             (fun h => ImageStatusAvailable conn h id timeout) in
          match err with
          | Some e =>
              let* id := d_Id in
              ret (Some (Errorf_w
                ("error waiting for Image Builder Image (" ++ id ++ ") to become available: ") e))
          | None => resourceAwsImageBuilderImageRead meta
          end
      end
  end.

Definition resourceAwsImageBuilderImageUpdate (meta : AWSClient) : M (option error) :=
  let conn := imagebuilderconn meta in
  let* changed := d_HasChange "tags" in
  let* failed :=
    (if changed then
       let* (o, n) := d_GetChange "tags" in
       let* id := d_Id in
       let* err := issue (UpdateTagsCall id o n) (fun h => ImagebuilderUpdateTags conn h id o n) in
       match err with
       | Some e =>
           let* id := d_Id in
           ret (Some (Errorf_w
             ("error updating tags for Image Builder Image (" ++ id ++ "): ") e))
       | None => ret None
       end
     else ret None) in
  match failed with
  | Some e => ret (Some e)
  | None => resourceAwsImageBuilderImageRead meta
  end.

Definition resourceAwsImageBuilderImageDelete (meta : AWSClient) : M (option error) :=
  let conn := imagebuilderconn meta in
  let* id := d_Id in
  let input := {| dii_ImageBuildVersionArn := Some id |} in
  let* err := issue (DeleteImageCall input) (fun h => DeleteImage conn h input) in
  if ErrCodeEquals err ErrCodeResourceNotFoundException then
    ret None
  else
    match err with
    | Some e =>
        let* id := d_Id in
        ret (Some (Errorf_w ("error deleting Image Builder Image (" ++ id ++ "): ") e))
    | None => ret None
    end.

End ImageResource.

(** * Vocabulary of the properties *)

(** The schema of the block nested under a list attribute of a resource. *)
Definition blockSchema (r : Resource) (key : string) : gmap string Schema :=
  match rSchema r !! key ≫= sElem with
  | Some (ElemResource fields) => fields
  | _ => ∅
  end.

(** A flat configuration map of a block: every key it holds is declared by
    the schema of the block. *)
Definition flatConfigurationMap (block : gmap string Schema)
    (m : gmap string value) : Prop :=
  ∀ k, block !! k = None → m !! k = None.


(** The non-nil elements of a slice of pointers, in order. *)
Definition nonNil {A} (xs : list (option A)) : list A := omap id xs.

(** A computation that neither touches the resource data nor issues a call. *)
Definition keepsData {A} (m : M A) : Prop :=
  ∀ s a s', m s = Returned a s' → st_d s' = st_d s ∧ st_calls s' = st_calls s.

(** [aws.String(v)] for a string attribute that [GetOk] reports as set, nil
    for one it reports as unset (the empty string). *)
Definition nonEmpty (v : string) : option string :=
  if bool_decide (v = "") then None else Some v.

(** ** A provider to run the callbacks on examples *)

(** Stand-ins for the collaborators: tags are string maps, [IgnoreAws] drops
    the keys that start with "aws:", the tag helper and the waiter succeed. *)
Definition exampleCollaborators : Collaborators :=
  {| KeyValueTags := gmap string string;
     IgnoreConfig := unit;
     keyvaluetags_New := λ m,
       omap (λ v, match v with VString x => Some x | _ => None end) (default ∅ m);
     ImagebuilderKeyValueTags := λ t, StringValue <$> default ∅ t;
     IgnoreAws := λ t, filter (λ kv, String.prefix "aws:" kv.1 = false) t;
     IgnoreConfigOf := λ _ t, t;
     ImagebuilderTags := λ t, Some (Some <$> t);
     KeyValueTags_Map := λ t, t;
     ImagebuilderUpdateTags := λ _ _ _ _ _, None;
     ImageStatusAvailable := λ _ _ _ _, (None, None);
     expandImageBuilderComponentConfigurations := λ l,
       (λ xs : list value, (λ v : value, match v with
                    | VMap (Some m) =>
                        match m !! "component_arn" with
                        | Some (VString a) => Some {| cc_ComponentArn := Some a |}
                        | _ => Some {| cc_ComponentArn := None |}
                        end
                    | _ => None
                    end) <$> xs) <$> l;
     flattenImageBuilderComponentConfigurations := λ l,
       (λ xs : list (option ComponentConfiguration),
          (λ c : option ComponentConfiguration,
             VMap (Some match c ≫= cc_ComponentArn with
                                | Some a => {["component_arn" := VString a]}
                                | None => ∅
                                end)) <$> xs) <$> l;
     expandImageBuilderImageTestConfiguration := λ m,
       (λ m : gmap string value, {| itc_ImageTestsEnabled :=
                  match m !! "image_tests_enabled" with
                  | Some (VBool b) => Some b
                  | _ => None
                  end;
                itc_TimeoutMinutes :=
                  match m !! "timeout_minutes" with
                  | Some (VInt n) => Some n
                  | _ => None
                  end |}) <$> m;
     flattenImageBuilderImageTestsConfiguration := λ c,
       (λ c : ImageTestsConfiguration, let m : gmap string value := ∅ in
             let m := match itc_ImageTestsEnabled c with
                      | Some b => <["image_tests_enabled" := VBool b]> m
                      | None => m
                      end in
             match itc_TimeoutMinutes c with
             | Some n => <["timeout_minutes" := VInt n]> m
             | None => m
             end) <$> c;
     flattenStringSet := λ l,
       VList ((λ xs : list (option string),
                 (λ x : option string, VString (StringValue x)) <$> xs) <$> l);
     uniqueIdOf := λ n, "terraform-" ++ pretty n |}.

Definition exampleImageArn : string :=
  "arn:aws:imagebuilder:us-east-1:123456789012:image/example/1.0.0/1".

Definition exampleRecipeArn : string :=
  "arn:aws:imagebuilder:us-east-1:123456789012:container-recipe/example/1.0.0".

(** A container image: it has a container recipe and no image recipe. *)
Definition exampleImage : Image :=
  {| img_Arn := Some exampleImageArn;
     img_ContainerRecipe :=
       Some {| cr_Arn := Some exampleRecipeArn;
               cr_Components := None; cr_ContainerType := Some "DOCKER";
               cr_DateCreated := None; cr_Description := None;
               cr_DockerfileTemplateData := None; cr_Encrypted := Some true;
               cr_KmsKeyId := None; cr_Name := Some "example"; cr_Owner := None;
               cr_ParentImage := None; cr_Platform := Some "Linux"; cr_Tags := None;
               cr_TargetRepository :=
                 Some {| tcr_RepositoryName := Some "repo"; tcr_Service := Some "ECR" |};
               cr_Version := Some "1.0.0"; cr_WorkingDirectory := None |};
     img_DateCreated := Some "2021-03-01T00:00:00Z";
     img_DistributionConfiguration := None;
     img_EnhancedImageMetadataEnabled := Some true;
     img_ImageRecipe := None;
     img_ImageTestsConfiguration :=
       Some {| itc_ImageTestsEnabled := Some true; itc_TimeoutMinutes := Some 720%Z |};
     img_InfrastructureConfiguration :=
       Some {| ic_Arn :=
                 Some "arn:aws:imagebuilder:us-east-1:123456789012:infrastructure-configuration/example" |};
     img_Name := Some "example";
     img_OsVersion := Some "Amazon Linux 2";
     img_OutputResources :=
       Some {| or_Amis := None;
               or_Containers :=
                 Some [None;
                       Some {| ctr_ImageUris := Some [Some "123456789012.dkr.ecr.us-east-1.amazonaws.com/repo:1"];
                               ctr_Region := Some "us-east-1" |}] |};
     img_Platform := Some "Linux";
     img_Tags := Some {["Team" := Some "infra"]};
     img_Version := Some "1.0.0/1" |}.

(** A service where every operation succeeds. *)
Definition availableService : Imagebuilder :=
  {| CreateImage := λ _ _, (Some {| cio_ImageBuildVersionArn := Some exampleImageArn |}, None);
     GetImage := λ _ _, (Some {| gio_Image := Some exampleImage |}, None);
     DeleteImage := λ _ _, None;
     CreateContainerRecipe := λ _ _,
       (Some {| ccro_ContainerRecipeArn := Some exampleRecipeArn |}, None);
     GetContainerRecipe := λ _ _,
       (Some {| gcro_ContainerRecipe := img_ContainerRecipe exampleImage |}, None);
     DeleteContainerRecipe := λ _ _, None |}.

(** A service where the resource is gone and nothing may be created. *)
Definition goneService : Imagebuilder :=
  {| CreateImage := λ _ _, (None, Some (awserr "AccessDeniedException" "not allowed"));
     GetImage := λ _ _, (None, Some (awserr ErrCodeResourceNotFoundException "gone"));
     DeleteImage := λ _ _, Some (awserr ErrCodeResourceNotFoundException "gone");
     CreateContainerRecipe := λ _ _, (None, None);
     GetContainerRecipe := λ _ _,
       (None, Some (awserr ErrCodeResourceNotFoundException "gone"));
     DeleteContainerRecipe := λ _ _,
       Some (awserr ErrCodeResourceNotFoundException "gone") |}.

Definition availableClient : @AWSClient exampleCollaborators :=
  {| imagebuilderconn := availableService; IgnoreTagsConfig := None |}.

Definition goneClient : @AWSClient exampleCollaborators :=
  {| imagebuilderconn := goneService; IgnoreTagsConfig := None |}.

Definition stateOf (d : ResourceData) : State :=
  {| st_d := d; st_calls := []; st_ids := 0 |}.

(** The image resource as Create receives it: no id yet. *)
Definition newImageData : ResourceData :=
  {| rdSchema := rSchema resourceAwsImageBuilderImage;
     rdId := "";
     rdIsNew := true;
     rdState := ∅;
     rdConfig :=
       {[ "container_recipe_arn" := VString exampleRecipeArn;
          "infrastructure_configuration_arn" :=
            VString "arn:aws:imagebuilder:us-east-1:123456789012:infrastructure-configuration/example" ]};
     rdSet := ∅;
     rdTimeouts := rTimeouts resourceAwsImageBuilderImage |}.

(** The image resource as Read, Update and Delete receive it later, with a
    change of tags planned. *)
Definition storedImageData : ResourceData :=
  {| rdSchema := rSchema resourceAwsImageBuilderImage;
     rdId := exampleImageArn;
     rdIsNew := false;
     rdState := {[ "tags" := VMap (Some {[ "Team" := VString "infra" ]}) ]};
     rdConfig := {[ "tags" := VMap (Some {[ "Team" := VString "platform" ]}) ]};
     rdSet := ∅;
     rdTimeouts := rTimeouts resourceAwsImageBuilderImage |}.

(** The container recipe as Create receives it. *)
Definition newRecipeData : ResourceData :=
  {| rdSchema := rSchema resourceAwsImageBuilderContainerRecipe;
     rdId := "";
     rdIsNew := true;
     rdState := ∅;
     rdConfig :=
       {[ "component" :=
            VList (Some [VMap (Some {[ "component_arn" :=
              VString "arn:aws:imagebuilder:us-east-1:aws:component/update-linux/1.0.0" ]})]);
          "container_type" := VString "DOCKER";
          "dockerfile_template_data" := VString "FROM {{{ imagebuilder:parentImage }}}";
          "name" := VString "example";
          "parent_image" := VString "amazonlinux:latest";
          "semantic_version" := VString "1.0.0";
          "tags" := VMap (Some {[ "Team" := VString "infra"; "aws:cloudformation:stack-id" := VString "s" ]});
          "target_repository" :=
            VList (Some [VMap (Some {[ "repository_name" := VString "repo";
                                       "service" := VString "ECR" ]})]) ]};
     rdSet := ∅;
     rdTimeouts := None |}.

(** The resource data after writing the attributes of [w] over those already
    set. *)
Definition writes (w : gmap string value) (d : ResourceData) : ResourceData :=
  {| rdSchema := rdSchema d; rdId := rdId d; rdIsNew := rdIsNew d;
     rdState := rdState d; rdConfig := rdConfig d;
     rdSet := w ∪ rdSet d;
     rdTimeouts := rdTimeouts d |}.

(** A service that refuses every operation. *)
Definition deniedService : Imagebuilder :=
  {| CreateImage := λ _ _, (None, Some (awserr "AccessDeniedException" "not allowed"));
     GetImage := λ _ _, (None, Some (awserr "AccessDeniedException" "not allowed"));
     DeleteImage := λ _ _, Some (awserr "AccessDeniedException" "not allowed");
     CreateContainerRecipe := λ _ _,
       (None, Some (awserr "AccessDeniedException" "not allowed"));
     GetContainerRecipe := λ _ _,
       (None, Some (awserr "AccessDeniedException" "not allowed"));
     DeleteContainerRecipe := λ _ _,
       Some (awserr "AccessDeniedException" "not allowed") |}.

(** A service whose get calls succeed with nothing in the output. *)
Definition emptyService : Imagebuilder :=
  {| CreateImage := λ _ _, (None, None);
     GetImage := λ _ _, (Some {| gio_Image := None |}, None);
     DeleteImage := λ _ _, None;
     CreateContainerRecipe := λ _ _, (None, None);
     GetContainerRecipe := λ _ _, (None, None);
     DeleteContainerRecipe := λ _ _, None |}.

(** A service that creates but does not find what it created. *)
Definition vanishingService : Imagebuilder :=
  {| CreateImage := λ _ _, (Some {| cio_ImageBuildVersionArn := Some exampleImageArn |}, None);
     GetImage := λ _ _, (None, Some (awserr ErrCodeResourceNotFoundException "gone"));
     DeleteImage := λ _ _, None;
     CreateContainerRecipe := λ _ _,
       (Some {| ccro_ContainerRecipeArn := Some exampleRecipeArn |}, None);
     GetContainerRecipe := λ _ _,
       (None, Some (awserr ErrCodeResourceNotFoundException "gone"));
     DeleteContainerRecipe := λ _ _, None |}.

Definition deniedClient : @AWSClient exampleCollaborators :=
  {| imagebuilderconn := deniedService; IgnoreTagsConfig := None |}.

Definition emptyClient : @AWSClient exampleCollaborators :=
  {| imagebuilderconn := emptyService; IgnoreTagsConfig := None |}.

Definition vanishingClient : @AWSClient exampleCollaborators :=
  {| imagebuilderconn := vanishingService; IgnoreTagsConfig := None |}.

(** The container recipe that [availableService] returns. *)
Definition exampleRecipe : ContainerRecipe :=
  {| cr_Arn := Some exampleRecipeArn;
     cr_Components := None; cr_ContainerType := Some "DOCKER";
     cr_DateCreated := None; cr_Description := None;
     cr_DockerfileTemplateData := None; cr_Encrypted := Some true;
     cr_KmsKeyId := None; cr_Name := Some "example"; cr_Owner := None;
     cr_ParentImage := None; cr_Platform := Some "Linux"; cr_Tags := None;
     cr_TargetRepository :=
       Some {| tcr_RepositoryName := Some "repo"; tcr_Service := Some "ECR" |};
     cr_Version := Some "1.0.0"; cr_WorkingDirectory := None |}.

(** The container recipe as Read, Update and Delete receive it later. *)
Definition storedRecipeData : ResourceData :=
  {| rdSchema := rSchema resourceAwsImageBuilderContainerRecipe;
     rdId := exampleRecipeArn;
     rdIsNew := false;
     rdState := ∅;
     rdConfig := ∅;
     rdSet := ∅;
     rdTimeouts := None |}.

(** A container recipe whose target_repository list holds a nil element. *)
Definition nilRepositoryRecipeData : ResourceData :=
  {| rdSchema := rSchema resourceAwsImageBuilderContainerRecipe;
     rdId := "";
     rdIsNew := true;
     rdState := ∅;
     rdConfig :=
       {[ "container_type" := VString "DOCKER";
          "name" := VString "example";
          "target_repository" := VList (Some [VNil]) ]};
     rdSet := ∅;
     rdTimeouts := None |}.

(** * Properties *)

(** ** Lists of pointers *)

Lemma nonNil_nil_iff {A} (xs : list (option A)) :
  nonNil xs = [] ↔ Forall (λ x, x = None) xs.
Proof.
  induction xs as [| [a |] xs IH]; simpl.
  - split; [constructor | reflexivity].
  - split; [discriminate | inversion 1; discriminate].
  - unfold nonNil in *. simpl. rewrite IH. split.
    + intros Hall. constructor; [reflexivity | exact Hall].
    + inversion 1; assumption.
Qed.

Lemma foldl_pointwise {A B} (f g : A → B → A) (xs : list B) (acc : A) :
  (∀ a b, f a b = g a b) → foldl f acc xs = foldl g acc xs.
Proof.
  intros Hfg. revert acc. induction xs as [| x xs IH]; intros acc; simpl.
  - reflexivity.
  - rewrite Hfg. apply IH.
Qed.

(** The loop of the list flatteners: skip nil, append the rest. *)
Lemma flatten_loop {A} (g : A → value) (xs : list (option A)) (acc : option (list value)) :
  foldl (fun (tfList : option (list value)) (apiObject : option A) =>
           match apiObject with
           | None => tfList
           | Some a => append tfList (g a)
           end) acc xs
  = match nonNil xs with
    | [] => acc
    | ys => Some (default [] acc ++ (g <$> ys))%list
    end.
Proof.
  revert acc. induction xs as [| [a |] xs IH]; intros acc; simpl.
  - reflexivity.
  - rewrite IH. unfold nonNil. simpl.
    destruct (omap id xs) as [| y ys] eqn:E, acc as [l |]; simpl;
      rewrite <- ?app_assoc; reflexivity.
  - rewrite IH. reflexivity.
Qed.

Section Flatteners.
Context `{Collaborators}.

Lemma flattenImageBuilderAmis_spec (apiObjects : option (list (option Ami))) :
  flattenImageBuilderAmis apiObjects
  = match nonNil (default [] apiObjects) with
    | [] => None
    | ys => Some ((λ a, VMap (flattenImageBuilderAmi (Some a))) <$> ys)
    end.
Proof.
  unfold flattenImageBuilderAmis.
  destruct apiObjects as [[| x xs] |]; try reflexivity.
  change (Nat.eqb (len (Some (x :: xs))) 0) with false. cbv iota.
  etransitivity.
  - apply (foldl_pointwise _
      (λ tfList apiObject,
         match apiObject with
         | None => tfList
         | Some a => append tfList (VMap (flattenImageBuilderAmi (Some a)))
         end)).
    intros acc [a |]; reflexivity.
  - rewrite (flatten_loop (λ a, VMap (flattenImageBuilderAmi (Some a)))).
    destruct (nonNil _); reflexivity.
Qed.

Lemma flattenImageBuilderContainers_spec (apiObjects : option (list (option Container))) :
  flattenImageBuilderContainers apiObjects
  = match nonNil (default [] apiObjects) with
    | [] => None
    | ys => Some ((λ a, VMap (flattenImageBuilderContainer (Some a))) <$> ys)
    end.
Proof.
  unfold flattenImageBuilderContainers.
  destruct apiObjects as [[| x xs] |]; try reflexivity.
  change (Nat.eqb (len (Some (x :: xs))) 0) with false. cbv iota.
  etransitivity.
  - apply (foldl_pointwise _
      (λ tfList apiObject,
         match apiObject with
         | None => tfList
         | Some a => append tfList (VMap (flattenImageBuilderContainer (Some a)))
         end)).
    intros acc [a |]; reflexivity.
  - rewrite (flatten_loop (λ a, VMap (flattenImageBuilderContainer (Some a)))).
    destruct (nonNil _); reflexivity.
Qed.

(** The map of one AMI holds exactly its non-nil fields. *)
Lemma flattenImageBuilderAmi_fields (a : Ami) :
  ∃ m, flattenImageBuilderAmi (Some a) = Some m
    ∧ m !! "account_id" = VString <$> ami_AccountId a
    ∧ m !! "description" = VString <$> ami_Description a
    ∧ m !! "image" = VString <$> ami_Image a
    ∧ m !! "name" = VString <$> ami_Name a
    ∧ m !! "region" = VString <$> ami_Region a
    ∧ ∀ k, k ≠ "account_id" → k ≠ "description" → k ≠ "image" → k ≠ "name" →
           k ≠ "region" → m !! k = None.
Proof.
  destruct a as [[a1 |] [a2 |] [a3 |] [a4 |] [a5 |]];
    (eexists; split; [reflexivity |]);
    (repeat split; try reflexivity);
    intros k ? ? ? ? ?; simpl;
    rewrite ?lookup_insert_ne by congruence; apply lookup_empty.
Qed.

(** The map of one container holds exactly its non-nil fields. *)
Lemma flattenImageBuilderContainer_fields (c : Container) :
  ∃ m, flattenImageBuilderContainer (Some c) = Some m
    ∧ m !! "image_uris"
      = match ctr_ImageUris c with
        | Some _ => Some (flattenStringSet (ctr_ImageUris c))
        | None => None
        end
    ∧ m !! "region" = VString <$> ctr_Region c
    ∧ ∀ k, k ≠ "image_uris" → k ≠ "region" → m !! k = None.
Proof.
  destruct c as [[u |] [r |]];
    (eexists; split; [reflexivity |]);
    (repeat split; try reflexivity);
    intros k ? ?; simpl;
    rewrite ?lookup_insert_ne by congruence; apply lookup_empty.
Qed.

(** C9.  [flattenImageBuilderAmis] and [flattenImageBuilderContainers] return
    nil when the input is empty or holds only nil pointers; otherwise they
    return the flattened non-nil elements in their original order, nil
    elements skipped; and the map of each element has exactly the keys of
    its non-nil fields. *)
Theorem flatten_amis_containers_skip_nil :
  (∀ xs : option (list (option Ami)),
     (Forall (λ x, x = None) (default [] xs) → flattenImageBuilderAmis xs = None)
     ∧ (¬ Forall (λ x, x = None) (default [] xs) →
        flattenImageBuilderAmis xs
        = Some ((λ a, VMap (flattenImageBuilderAmi (Some a))) <$> nonNil (default [] xs))))
  ∧ (∀ xs : option (list (option Container)),
     (Forall (λ x, x = None) (default [] xs) → flattenImageBuilderContainers xs = None)
     ∧ (¬ Forall (λ x, x = None) (default [] xs) →
        flattenImageBuilderContainers xs
        = Some ((λ c, VMap (flattenImageBuilderContainer (Some c)))
                  <$> nonNil (default [] xs))))
  ∧ (∀ a : Ami,
       ∃ m, flattenImageBuilderAmi (Some a) = Some m
         ∧ m !! "account_id" = VString <$> ami_AccountId a
         ∧ m !! "description" = VString <$> ami_Description a
         ∧ m !! "image" = VString <$> ami_Image a
         ∧ m !! "name" = VString <$> ami_Name a
         ∧ m !! "region" = VString <$> ami_Region a
         ∧ ∀ k, k ≠ "account_id" → k ≠ "description" → k ≠ "image" → k ≠ "name" →
                k ≠ "region" → m !! k = None)
  ∧ (∀ c : Container,
       ∃ m, flattenImageBuilderContainer (Some c) = Some m
         ∧ m !! "image_uris"
           = match ctr_ImageUris c with
             | Some _ => Some (flattenStringSet (ctr_ImageUris c))
             | None => None
             end
         ∧ m !! "region" = VString <$> ctr_Region c
         ∧ ∀ k, k ≠ "image_uris" → k ≠ "region" → m !! k = None).
Proof.
  split; [| split; [| split]].
  - intros xs. rewrite flattenImageBuilderAmis_spec, <- nonNil_nil_iff.
    destruct (nonNil (default [] xs)); split; congruence.
  - intros xs. rewrite flattenImageBuilderContainers_spec, <- nonNil_nil_iff.
    destruct (nonNil (default [] xs)); split; congruence.
  - apply flattenImageBuilderAmi_fields.
  - apply flattenImageBuilderContainer_fields.
Qed.

End Flatteners.

(** ** Target repository: expand and flatten *)

(** Flatten after expand gives the map back when its only keys are the two
    of the schema and both hold non-empty strings. *)
Lemma flatten_expand_target_repository (m : gmap string value) (r s : string) :
  m !! "repository_name" = Some (VString r) → r ≠ "" →
  m !! "service" = Some (VString s) → s ≠ "" →
  (∀ k, k ≠ "repository_name" → k ≠ "service" → m !! k = None) →
  flattenImageBuilderTargetContainerRepository
    (expandImageBuilderTargetContainerRepository (Some m)) = Some m.
Proof.
  intros Hr Hr0 Hs Hs0 Hdom.
  unfold expandImageBuilderTargetContainerRepository.
  rewrite Hr, Hs, !bool_decide_eq_true_2 by assumption. simpl.
  f_equal. apply map_eq. intros k.
  destruct (decide (k = "service")) as [-> | Hk1].
  - rewrite lookup_insert_eq. symmetry. exact Hs.
  - rewrite lookup_insert_ne by congruence.
    destruct (decide (k = "repository_name")) as [-> | Hk2].
    + rewrite lookup_insert_eq. symmetry. exact Hr.
    + rewrite lookup_insert_ne by congruence. rewrite lookup_empty.
      symmetry. apply Hdom; assumption.
Qed.

(** Expand after flatten gives the struct back when its non-nil fields are
    non-empty. *)
Lemma expand_flatten_target_repository (a : TargetContainerRepository) :
  tcr_RepositoryName a ≠ Some "" → tcr_Service a ≠ Some "" →
  expandImageBuilderTargetContainerRepository
    (flattenImageBuilderTargetContainerRepository (Some a)) = Some a.
Proof.
  destruct a as [[r |] [s |]]; simpl; intros Hr Hs;
    unfold expandImageBuilderTargetContainerRepository; simpl;
    rewrite ?lookup_insert_eq, ?(lookup_insert_ne _ "service" "repository_name") by done;
    rewrite ?lookup_insert_eq, ?lookup_empty;
    rewrite ?bool_decide_eq_true_2 by congruence; reflexivity.
Qed.

(** The block of target_repository declares exactly the two keys. *)
Lemma target_repository_block :
  blockSchema resourceAwsImageBuilderContainerRecipe "target_repository"
  = <["repository_name" := attr TypeString true false false true None]>
      (<["service" := attr TypeString true false false true None]> ∅).
Proof. reflexivity. Qed.

(** C3.  For every flat configuration map of the target_repository block (a
    map that holds no key but those the block's schema declares) whose
    "repository_name" and "service" entries are non-empty strings, flatten
    after expand returns the map; both functions map nil to nil. *)
Theorem target_repository_roundtrip_schema_keys :
  (∀ (m : gmap string value) (r s : string),
     flatConfigurationMap
       (blockSchema resourceAwsImageBuilderContainerRecipe "target_repository") m →
     m !! "repository_name" = Some (VString r) → r ≠ "" →
     m !! "service" = Some (VString s) → s ≠ "" →
     flattenImageBuilderTargetContainerRepository
       (expandImageBuilderTargetContainerRepository (Some m)) = Some m)
  ∧ expandImageBuilderTargetContainerRepository None = None
  ∧ flattenImageBuilderTargetContainerRepository None = None.
Proof.
  split; [| split; reflexivity].
  intros m r s Hflat Hr Hr0 Hs Hs0.
  apply (flatten_expand_target_repository m r s); try assumption.
  intros k Hk1 Hk2. apply Hflat.
  rewrite target_repository_block.
  rewrite !lookup_insert_ne by congruence. apply lookup_empty.
Qed.

Lemma target_repository_roundtrip_schema_keys_witness :
  let m : gmap string value :=
    <["repository_name" := VString "repo"]> (<["service" := VString "ECR"]> ∅) in
  flattenImageBuilderTargetContainerRepository
    (expandImageBuilderTargetContainerRepository (Some m)) = Some m.
Proof.
  intros m.
  apply (proj1 target_repository_roundtrip_schema_keys m "repo" "ECR");
    try reflexivity; try discriminate.
  intros k Hk. rewrite target_repository_block in Hk. subst m.
  destruct (decide (k = "repository_name")) as [-> | Hk1].
  { rewrite lookup_insert_eq in Hk. discriminate Hk. }
  rewrite lookup_insert_ne in Hk by congruence.
  destruct (decide (k = "service")) as [-> | Hk2].
  { rewrite lookup_insert_eq in Hk. discriminate Hk. }
  rewrite !lookup_insert_ne by congruence. apply lookup_empty.
Defined.

(** ** Delete *)

Section Lifecycle.
Context `{Collaborators}.

(** C7.  Delete of either resource sends the stored id as the ARN of its one
    request; a ResourceNotFoundException makes it return nil, any other error
    is returned wrapped, and no error gives nil. *)
Theorem delete_ignores_not_found (meta : AWSClient) (s : State) :
  (let input := {| dii_ImageBuildVersionArn := Some (rdId (st_d s)) |} in
   let err := DeleteImage (imagebuilderconn meta) (st_calls s) input in
   ∃ r, resourceAwsImageBuilderImageDelete meta s
        = Returned r (addCall (DeleteImageCall input) s)
      ∧ (ErrCodeEquals err ErrCodeResourceNotFoundException = true → r = None)
      ∧ (∀ e, err = Some e →
              ErrCodeEquals err ErrCodeResourceNotFoundException = false →
              r = Some (wrapError
                          ("error deleting Image Builder Image ("
                             ++ rdId (st_d s) ++ "): ") e))
      ∧ (err = None → r = None))
  ∧
  (let input := {| dcri_ContainerRecipeArn := Some (rdId (st_d s)) |} in
   let err := DeleteContainerRecipe (imagebuilderconn meta) (st_calls s) input in
   ∃ r, resourceAwsImageBuilderContainerRecipeDelete meta s
        = Returned r (addCall (DeleteContainerRecipeCall input) s)
      ∧ (ErrCodeEquals err ErrCodeResourceNotFoundException = true → r = None)
      ∧ (∀ e, err = Some e →
              ErrCodeEquals err ErrCodeResourceNotFoundException = false →
              r = Some (wrapError
                          ("error deleting Image Builder Image Recipe ("
                             ++ rdId (st_d s) ++ "): ") e))
      ∧ (err = None → r = None)).
Proof.
  split; intros input err.
  - unfold resourceAwsImageBuilderImageDelete, bind, d_Id, readData, issue, ret.
    fold input. fold err.
    destruct err as [e |] eqn:Herr; simpl.
    + destruct (errCodeIs e ErrCodeResourceNotFoundException) eqn:Hc;
        eexists; (split; [reflexivity |]); repeat split; try congruence.
      intros e' [= <-] _. reflexivity.
    + eexists; (split; [reflexivity |]); repeat split; congruence.
  - unfold resourceAwsImageBuilderContainerRecipeDelete, bind, d_Id, readData, issue, ret.
    fold input. fold err.
    destruct err as [e |] eqn:Herr; simpl.
    + destruct (errCodeIs e ErrCodeResourceNotFoundException) eqn:Hc;
        eexists; (split; [reflexivity |]); repeat split; try congruence.
      intros e' [= <-] _. reflexivity.
    + eexists; (split; [reflexivity |]); repeat split; congruence.
Qed.

(** ** Read when the resource is gone *)

(** C8.  When the get call of Read fails with ResourceNotFoundException: for
    a resource that is not new, Read sets the id to the empty string and
    returns nil; for a new resource, Read returns the error wrapped and leaves
    the resource data as it was. *)
Theorem read_not_found (meta : AWSClient) (s : State) :
  (let input := {| gii_ImageBuildVersionArn := Some (rdId (st_d s)) |} in
   let err := snd (GetImage (imagebuilderconn meta) (st_calls s) input) in
   ErrCodeEquals err ErrCodeResourceNotFoundException = true →
   (rdIsNew (st_d s) = false →
    resourceAwsImageBuilderImageRead meta s
    = Returned None (setData (rd_SetId "" (st_d s)) (addCall (GetImageCall input) s)))
   ∧ (rdIsNew (st_d s) = true →
      ∃ e, err = Some e
         ∧ resourceAwsImageBuilderImageRead meta s
           = Returned
               (Some (wrapError ("error getting Image Builder Image ("
                                   ++ rdId (st_d s) ++ "): ") e))
               (addCall (GetImageCall input) s)))
  ∧
  (let input := {| gcri_ContainerRecipeArn := Some (rdId (st_d s)) |} in
   let err := snd (GetContainerRecipe (imagebuilderconn meta) (st_calls s) input) in
   ErrCodeEquals err ErrCodeResourceNotFoundException = true →
   (rdIsNew (st_d s) = false →
    resourceAwsImageBuilderContainerRecipeRead meta s
    = Returned None
        (setData (rd_SetId "" (st_d s)) (addCall (GetContainerRecipeCall input) s)))
   ∧ (rdIsNew (st_d s) = true →
      ∃ e, err = Some e
         ∧ resourceAwsImageBuilderContainerRecipeRead meta s
           = Returned
               (Some (wrapError ("error getting Image Builder Container Recipe ("
                                   ++ rdId (st_d s) ++ "): ") e))
               (addCall (GetContainerRecipeCall input) s))).
Proof.
  split; intros input err Hnf.
  - unfold resourceAwsImageBuilderImageRead, bind, d_Id, d_IsNewResource, d_SetId,
      withData, readData, issue, ret.
    subst err. fold input.
    destruct (GetImage (imagebuilderconn meta) (st_calls s) input) as [output err].
    simpl in Hnf |- *. split; intros Hnew; rewrite Hnew; simpl.
    + rewrite Hnf. reflexivity.
    + destruct err as [e |]; [| discriminate Hnf]. eexists; split; reflexivity.
  - unfold resourceAwsImageBuilderContainerRecipeRead, bind, d_Id, d_IsNewResource,
      d_SetId, withData, readData, issue, ret.
    subst err. fold input.
    destruct (GetContainerRecipe (imagebuilderconn meta) (st_calls s) input)
      as [output err].
    simpl in Hnf |- *. split; intros Hnew; rewrite Hnew; simpl.
    + rewrite Hnf. reflexivity.
    + destruct err as [e |]; [| discriminate Hnf]. eexists; split; reflexivity.
Qed.

(** ** Read always returns, after one get call *)

Arguments rd_Set : simpl never.
Arguments rd_SetId : simpl never.
Arguments rd_Get : simpl never.
Arguments rd_GetChange : simpl never.
Arguments rd_HasChange : simpl never.
Arguments rd_Timeout : simpl never.

Ltac run_callback :=
  unfold bind, d_Id, d_IsNewResource, d_SetId, d_Set, d_Get, d_GetOk, d_HasChange,
    d_GetChange, d_Timeout, withData, readData, issue, ret; simpl.

Lemma image_read_returns (meta : AWSClient) (s : State) :
  ∃ r d',
    resourceAwsImageBuilderImageRead meta s
    = Returned r
        (setData d'
           (addCall (GetImageCall {| gii_ImageBuildVersionArn := Some (rdId (st_d s)) |}) s)).
Proof.
  unfold resourceAwsImageBuilderImageRead. run_callback.
  destruct (GetImage _ _ _) as [output err].
  match goal with |- context [if ?b then _ else _] => destruct b end; simpl.
  { eexists _, _. reflexivity. }
  destruct err as [e |]; simpl.
  { exists (Some (wrapError ("error getting Image Builder Image ("
                               ++ rdId (st_d s) ++ "): ") e)), (st_d s).
    destruct s; reflexivity. }
  destruct (output ≫= gio_Image) as [image |]; simpl.
  2: { eexists _, (st_d s). destruct s; reflexivity. }
  destruct (img_ContainerRecipe image), (img_DistributionConfiguration image),
    (img_ImageRecipe image), (img_ImageTestsConfiguration image),
    (img_InfrastructureConfiguration image), (img_OutputResources image);
    simpl; eexists _, _; reflexivity.
Qed.

Lemma container_recipe_read_returns (meta : AWSClient) (s : State) :
  ∃ r d',
    resourceAwsImageBuilderContainerRecipeRead meta s
    = Returned r
        (setData d'
           (addCall (GetContainerRecipeCall
                       {| gcri_ContainerRecipeArn := Some (rdId (st_d s)) |}) s)).
Proof.
  unfold resourceAwsImageBuilderContainerRecipeRead. run_callback.
  destruct (GetContainerRecipe _ _ _) as [output err].
  match goal with |- context [if ?b then _ else _] => destruct b end; simpl.
  { eexists _, _. reflexivity. }
  destruct err as [e |]; simpl.
  { exists (Some (wrapError ("error getting Image Builder Container Recipe ("
                               ++ rdId (st_d s) ++ "): ") e)), (st_d s).
    destruct s; reflexivity. }
  destruct (output ≫= gcro_ContainerRecipe) as [containerRecipe |]; simpl.
  2: { eexists _, (st_d s). destruct s; reflexivity. }
  eexists _, _; reflexivity.
Qed.

(** ** Update *)

Lemma image_update_cases (meta : AWSClient) (s : State) :
  let d := st_d s in
  let id := rdId d in
  let o := fst (rd_GetChange "tags" d) in
  let n := snd (rd_GetChange "tags" d) in
  let answer := ImagebuilderUpdateTags (imagebuilderconn meta) (st_calls s) id o n in
  let s1 := addCall (UpdateTagsCall id o n) s in
  resourceAwsImageBuilderImageUpdate meta s
  = if rd_HasChange "tags" d then
      match answer with
      | Some e =>
          Returned (Some (wrapError ("error updating tags for Image Builder Image ("
                                       ++ id ++ "): ") e)) s1
      | None => resourceAwsImageBuilderImageRead meta s1
      end
    else resourceAwsImageBuilderImageRead meta s.
Proof.
  intros d id o n answer s1.
  unfold resourceAwsImageBuilderImageUpdate. run_callback.
  fold d. destruct (rd_HasChange "tags" d); simpl; [| reflexivity].
  subst answer s1 o n id d. unfold rd_GetChange. simpl.
  destruct (ImagebuilderUpdateTags _ _ _ _ _); reflexivity.
Qed.

Lemma container_recipe_update_cases (meta : AWSClient) (s : State) :
  let d := st_d s in
  let id := rdId d in
  let o := fst (rd_GetChange "tags" d) in
  let n := snd (rd_GetChange "tags" d) in
  let answer := ImagebuilderUpdateTags (imagebuilderconn meta) (st_calls s) id o n in
  let s1 := addCall (UpdateTagsCall id o n) s in
  resourceAwsImageBuilderContainerRecipeUpdate meta s
  = if rd_HasChange "tags" d then
      match answer with
      | Some e =>
          Returned (Some (wrapError ("error updating tags for Image Builder Image Recipe ("
                                       ++ id ++ "): ") e)) s1
      | None => resourceAwsImageBuilderContainerRecipeRead meta s1
      end
    else resourceAwsImageBuilderContainerRecipeRead meta s.
Proof.
  intros d id o n answer s1.
  unfold resourceAwsImageBuilderContainerRecipeUpdate. run_callback.
  fold d. destruct (rd_HasChange "tags" d); simpl; [| reflexivity].
  subst answer s1 o n id d. unfold rd_GetChange. simpl.
  destruct (ImagebuilderUpdateTags _ _ _ _ _); reflexivity.
Qed.

(** C5.  Update of either resource calls the tag helper with the id and the
    old and new values of "tags" exactly when "tags" changed, and that is its
    only mutating call; an error of the helper is returned wrapped, with the
    resource data untouched and nothing else called; otherwise Update ends
    with the refresh Read. *)
Theorem update_only_reconciles_tags (meta : AWSClient) (s : State) :
  let d := st_d s in
  let id := rdId d in
  let o := fst (rd_GetChange "tags" d) in
  let n := snd (rd_GetChange "tags" d) in
  let changed := rd_HasChange "tags" d in
  let answer := ImagebuilderUpdateTags (imagebuilderconn meta) (st_calls s) id o n in
  let s1 := addCall (UpdateTagsCall id o n) s in
  ((changed = false →
    resourceAwsImageBuilderImageUpdate meta s = resourceAwsImageBuilderImageRead meta s)
   ∧ (changed = true → ∀ e, answer = Some e →
      resourceAwsImageBuilderImageUpdate meta s
      = Returned (Some (wrapError ("error updating tags for Image Builder Image ("
                                     ++ id ++ "): ") e)) s1)
   ∧ (changed = true → answer = None →
      resourceAwsImageBuilderImageUpdate meta s = resourceAwsImageBuilderImageRead meta s1)
   ∧ ∃ r s' new,
       resourceAwsImageBuilderImageUpdate meta s = Returned r s'
       ∧ st_calls s' = (st_calls s ++ new)%list
       ∧ List.filter mutating new = if changed then [UpdateTagsCall id o n] else [])
  ∧
  ((changed = false →
    resourceAwsImageBuilderContainerRecipeUpdate meta s
    = resourceAwsImageBuilderContainerRecipeRead meta s)
   ∧ (changed = true → ∀ e, answer = Some e →
      resourceAwsImageBuilderContainerRecipeUpdate meta s
      = Returned (Some (wrapError ("error updating tags for Image Builder Image Recipe ("
                                     ++ id ++ "): ") e)) s1)
   ∧ (changed = true → answer = None →
      resourceAwsImageBuilderContainerRecipeUpdate meta s
      = resourceAwsImageBuilderContainerRecipeRead meta s1)
   ∧ ∃ r s' new,
       resourceAwsImageBuilderContainerRecipeUpdate meta s = Returned r s'
       ∧ st_calls s' = (st_calls s ++ new)%list
       ∧ List.filter mutating new = if changed then [UpdateTagsCall id o n] else []).
Proof.
  intros d id o n changed answer s1. split.
  - pose proof (image_update_cases meta s) as Hu. cbv zeta in Hu.
    fold d id o n changed answer s1 in Hu.
    repeat split.
    + intros Hc. rewrite Hu, Hc. reflexivity.
    + intros Hc e He. rewrite Hu, Hc, He. reflexivity.
    + intros Hc He. rewrite Hu, Hc, He. reflexivity.
    + rewrite Hu. destruct changed.
      * destruct answer as [e |].
        -- eexists _, _, [_]. repeat split.
        -- destruct (image_read_returns meta s1) as (r & d' & ->).
           eexists _, _, [_; _]. split; [reflexivity |]. simpl.
           rewrite <- app_assoc. split; reflexivity.
      * destruct (image_read_returns meta s) as (r & d' & ->).
        eexists _, _, [_]. repeat split.
  - pose proof (container_recipe_update_cases meta s) as Hu. cbv zeta in Hu.
    fold d id o n changed answer s1 in Hu.
    repeat split.
    + intros Hc. rewrite Hu, Hc. reflexivity.
    + intros Hc e He. rewrite Hu, Hc, He. reflexivity.
    + intros Hc He. rewrite Hu, Hc, He. reflexivity.
    + rewrite Hu. destruct changed.
      * destruct answer as [e |].
        -- eexists _, _, [_]. repeat split.
        -- destruct (container_recipe_read_returns meta s1) as (r & d' & ->).
           eexists _, _, [_; _]. split; [reflexivity |]. simpl.
           rewrite <- app_assoc. split; reflexivity.
      * destruct (container_recipe_read_returns meta s) as (r & d' & ->).
        eexists _, _, [_]. repeat split.
Qed.

(** ** Create *)

Lemma keepsData_ret {A} (a : A) : keepsData (ret a).
Proof. intros s a' s' [= _ <-]. split; reflexivity. Qed.

Lemma keepsData_panic {A} : keepsData (@panic A).
Proof. intros s a s' [=]. Qed.

Lemma keepsData_readData {A} (f : ResourceData → A) : keepsData (readData f).
Proof. intros s a s' [= _ <-]. split; reflexivity. Qed.

Lemma keepsData_UniqueId : keepsData UniqueId.
Proof. intros s a s' [= _ <-]. split; reflexivity. Qed.

Lemma keepsData_bind {A B} (m : M A) (k : A → M B) :
  keepsData m → (∀ a, keepsData (k a)) → keepsData (bind m k).
Proof.
  intros Hm Hk s b s'. unfold bind.
  destruct (m s) as [a s1 |] eqn:E; [| discriminate].
  intros Hks. destruct (Hm _ _ _ E) as [E1 E2], (Hk a _ _ _ Hks) as [E3 E4].
  split; congruence.
Qed.

Ltac keeps_data :=
  repeat first
    [ apply keepsData_ret
    | apply keepsData_panic
    | apply keepsData_UniqueId
    | apply keepsData_readData
    | apply keepsData_bind; [| intros ?]
    | match goal with
      | |- keepsData (let '(_, _) := ?p in _) => destruct p
      | |- keepsData (if ?b then _ else _) => destruct b
      | |- keepsData (match ?v with _ => _ end) => destruct v
      | |- keepsData (assertString ?v) => destruct v
      | |- keepsData (assertBool ?v) => destruct v
      | |- keepsData (assertList ?v) => destruct v
      | |- keepsData (assertMap ?v) => destruct v
      | |- keepsData (index0 ?v) => destruct v as [[|]|]
      end ].

Lemma imageCreateInput_keepsData : keepsData imageCreateInput.
Proof.
  unfold imageCreateInput, d_Get, d_GetOk. keeps_data.
Qed.

Lemma containerRecipeCreateInput_keepsData : keepsData containerRecipeCreateInput.
Proof.
  unfold containerRecipeCreateInput, d_Get, d_GetOk. keeps_data.
Qed.

(** What Create of the image does once the request is built. *)
Lemma image_create_cases (meta : AWSClient) (s s1 : State) (input : CreateImageInput) :
  imageCreateInput s = Returned input s1 →
  resourceAwsImageBuilderImageCreate meta s
  = let conn := imagebuilderconn meta in
    let s1' := addCall (CreateImageCall input) s1 in
    match CreateImage conn (st_calls s1) input with
    | (_, Some e) =>
        Returned (Some (wrapError "error creating Image Builder Image: " e)) s1'
    | (None, None) =>
        Returned (Some (errorString "error creating Image Builder Image: empty response")) s1'
    | (Some out, None) =>
        let arn := StringValue (cio_ImageBuildVersionArn out) in
        let timeout := rd_Timeout TimeoutCreate (st_d s1) in
        let s2 := setData (rd_SetId arn (st_d s1)) s1' in
        let s3 := addCall (ImageStatusAvailableCall arn timeout) s2 in
        match snd (ImageStatusAvailable conn (st_calls s2) arn timeout) with
        | Some e =>
            Returned (Some (wrapError ("error waiting for Image Builder Image ("
                                         ++ arn ++ ") to become available: ") e)) s3
        | None => resourceAwsImageBuilderImageRead meta s3
        end
    end.
Proof.
  intros Hin. unfold resourceAwsImageBuilderImageCreate.
  unfold bind at 1. rewrite Hin. run_callback.
  destruct (CreateImage _ _ _) as [[out |] [e |]]; try reflexivity.
  simpl. destruct (ImageStatusAvailable _ _ _ _) as [img [e |]]; reflexivity.
Qed.

Lemma container_recipe_create_cases (meta : AWSClient) (s s1 : State)
    (input : CreateContainerRecipeInput) :
  containerRecipeCreateInput s = Returned input s1 →
  resourceAwsImageBuilderContainerRecipeCreate meta s
  = let conn := imagebuilderconn meta in
    let s1' := addCall (CreateContainerRecipeCall input) s1 in
    match CreateContainerRecipe conn (st_calls s1) input with
    | (_, Some e) =>
        Returned (Some (wrapError "error creating Image Builder Container Recipe: " e)) s1'
    | (None, None) =>
        Returned
          (Some (errorString "error creating Image Builder Container Recipe: empty response"))
          s1'
    | (Some out, None) =>
        resourceAwsImageBuilderContainerRecipeRead meta
          (setData (rd_SetId (StringValue (ccro_ContainerRecipeArn out)) (st_d s1)) s1')
    end.
Proof.
  intros Hin. unfold resourceAwsImageBuilderContainerRecipeCreate.
  unfold bind at 1. rewrite Hin. run_callback.
  destruct (CreateContainerRecipe _ _ _) as [[out |] [e |]]; reflexivity.
Qed.

(** C1.  When CreateImage answers with a non-nil output and no error, Create
    sets the id to the returned ImageBuildVersionArn, then calls the waiter
    with that id and the create timeout (60 minutes unless configured); an
    error of the waiter is returned wrapped with the id still set to the ARN
    and without a Read; only a successful wait is followed by Read. *)
Theorem image_create_waits_before_read (meta : AWSClient) (s s1 : State)
    (input : CreateImageInput) (out : CreateImageOutput) :
  imageCreateInput s = Returned input s1 →
  CreateImage (imagebuilderconn meta) (st_calls s1) input = (Some out, None) →
  let arn := StringValue (cio_ImageBuildVersionArn out) in
  let timeout := rd_Timeout TimeoutCreate (st_d s) in
  let s2 := setData (rd_SetId arn (st_d s)) (addCall (CreateImageCall input) s1) in
  let s3 := addCall (ImageStatusAvailableCall arn timeout) s2 in
  let waited := snd (ImageStatusAvailable (imagebuilderconn meta) (st_calls s2) arn timeout) in
  rdId (st_d s3) = arn
  ∧ (∀ e, waited = Some e →
       resourceAwsImageBuilderImageCreate meta s
       = Returned (Some (wrapError ("error waiting for Image Builder Image ("
                                      ++ arn ++ ") to become available: ") e)) s3)
  ∧ (waited = None →
       resourceAwsImageBuilderImageCreate meta s = resourceAwsImageBuilderImageRead meta s3)
  ∧ (rdTimeouts (st_d s) = rTimeouts resourceAwsImageBuilderImage →
       timeout = (60 * Minute)%Z).
Proof.
  intros Hin Hout arn timeout s2 s3 waited.
  pose proof (image_create_cases meta s s1 input Hin) as Hc.
  destruct (imageCreateInput_keepsData _ _ _ Hin) as [Hd Hcalls].
  cbv zeta in Hc. rewrite Hout, Hd in Hc.
  fold arn timeout s2 s3 in Hc. fold waited in Hc.
  split; [reflexivity |]. split; [| split].
  - intros e He. rewrite Hc, He. reflexivity.
  - intros He. rewrite Hc, He. reflexivity.
  - intros Ht. subst timeout. unfold rd_Timeout. rewrite Ht. reflexivity.
Qed.

(** C2.  When the create call of either resource returns an error or a nil
    output, Create returns an error and the resource data, the id with it, is
    what it was; when the call succeeds with a non-nil output, Create
    continues from the id set to the returned ARN. *)
Theorem create_failure_leaves_id_unset (meta : AWSClient) (s : State) :
  (∀ s1 input output err,
     imageCreateInput s = Returned input s1 →
     CreateImage (imagebuilderconn meta) (st_calls s1) input = (output, err) →
     ((err ≠ None ∨ output = None) →
      ∃ e s', resourceAwsImageBuilderImageCreate meta s = Returned (Some e) s'
            ∧ st_d s' = st_d s)
     ∧ (∀ out, err = None → output = Some out →
        let arn := StringValue (cio_ImageBuildVersionArn out) in
        let timeout := rd_Timeout TimeoutCreate (st_d s) in
        let s2 := setData (rd_SetId arn (st_d s)) (addCall (CreateImageCall input) s1) in
        let s3 := addCall (ImageStatusAvailableCall arn timeout) s2 in
        rdId (st_d s3) = arn
        ∧ resourceAwsImageBuilderImageCreate meta s
          = match snd (ImageStatusAvailable (imagebuilderconn meta) (st_calls s2)
                         arn timeout) with
            | Some e =>
                Returned (Some (wrapError ("error waiting for Image Builder Image ("
                                             ++ arn ++ ") to become available: ") e)) s3
            | None => resourceAwsImageBuilderImageRead meta s3
            end))
  ∧
  (∀ s1 input output err,
     containerRecipeCreateInput s = Returned input s1 →
     CreateContainerRecipe (imagebuilderconn meta) (st_calls s1) input = (output, err) →
     ((err ≠ None ∨ output = None) →
      ∃ e s', resourceAwsImageBuilderContainerRecipeCreate meta s = Returned (Some e) s'
            ∧ st_d s' = st_d s)
     ∧ (∀ out, err = None → output = Some out →
        let arn := StringValue (ccro_ContainerRecipeArn out) in
        let s2 := setData (rd_SetId arn (st_d s))
                    (addCall (CreateContainerRecipeCall input) s1) in
        rdId (st_d s2) = arn
        ∧ resourceAwsImageBuilderContainerRecipeCreate meta s
          = resourceAwsImageBuilderContainerRecipeRead meta s2)).
Proof.
  split; intros s1 input output err Hin Hout.
  - pose proof (image_create_cases meta s s1 input Hin) as Hc.
    destruct (imageCreateInput_keepsData _ _ _ Hin) as [Hd Hcalls].
    cbv zeta in Hc. rewrite Hout, Hd in Hc. split.
    + intros Hfail. rewrite Hc.
      destruct err as [e |].
      * destruct output; eexists _, _; (split; [reflexivity | exact Hd]).
      * destruct output as [out |]; [destruct Hfail; congruence |].
        eexists _, _; (split; [reflexivity | exact Hd]).
    + intros out -> -> arn timeout s2 s3. split; [reflexivity | exact Hc].
  - pose proof (container_recipe_create_cases meta s s1 input Hin) as Hc.
    destruct (containerRecipeCreateInput_keepsData _ _ _ Hin) as [Hd Hcalls].
    cbv zeta in Hc. rewrite Hout, Hd in Hc. split.
    + intros Hfail. rewrite Hc.
      destruct err as [e |].
      * destruct output; eexists _, _; (split; [reflexivity | exact Hd]).
      * destruct output as [out |]; [destruct Hfail; congruence |].
        eexists _, _; (split; [reflexivity | exact Hd]).
    + intros out -> -> arn s2. split; [reflexivity | exact Hc].
Qed.

(** ** The request of the container recipe *)

Lemma getOk_step {B} (key : string) (k : value * bool → M B) (s : State) :
  bind (d_GetOk key) k s
  = k (rd_Get key (st_d s), negb (isZero (rd_Get key (st_d s)))) s.
Proof. reflexivity. Qed.

Lemma getOk_string_step {B} (key str : string) (k : option string → M B) (s : State) :
  rd_Get key (st_d s) = VString str →
  (let* (v, ok) := d_GetOk key in
   let* field := (if ok then let* x := assertString v in ret (Some x) else ret None) in
   k field) s
  = k (nonEmpty str) s.
Proof.
  intros Hget. rewrite getOk_step, Hget. unfold nonEmpty. simpl.
  destruct (bool_decide (str = "")); reflexivity.
Qed.



(** ** Read of the image on success *)

Lemma rdSet_Set_eq (k : string) (v : value) (d : ResourceData) :
  rdSet (rd_Set k v d) !! k = Some v.
Proof. apply lookup_insert_eq. Qed.

Lemma rdSet_Set_ne (k k' : string) (v : value) (d : ResourceData) :
  k ≠ k' → rdSet (rd_Set k v d) !! k' = rdSet d !! k'.
Proof. intros Hne. unfold rd_Set. simpl. apply lookup_insert_ne, Hne. Qed.

Lemma rdSet_whenSome_eq {A} (o : option A) (k : string) (f : A → value) (d : ResourceData) :
  rdSet (match o with Some r => rd_Set k (f r) d | None => d end) !! k
  = match o with Some r => Some (f r) | None => rdSet d !! k end.
Proof. destruct o; [apply rdSet_Set_eq | reflexivity]. Qed.

Lemma rdSet_whenSome_ne {A} (o : option A) (k k' : string) (f : A → value)
    (d : ResourceData) :
  k ≠ k' →
  rdSet (match o with Some r => rd_Set k (f r) d | None => d end) !! k' = rdSet d !! k'.
Proof. intros Hne. destruct o; [apply rdSet_Set_ne, Hne | reflexivity]. Qed.

Lemma rdSet_either_eq {A} (o : option A) (k : string) (f : A → value) (v : value)
    (d : ResourceData) :
  rdSet (match o with Some r => rd_Set k (f r) d | None => rd_Set k v d end) !! k
  = Some (match o with Some r => f r | None => v end).
Proof. destruct o; apply rdSet_Set_eq. Qed.

Lemma rdSet_either_ne {A} (o : option A) (k k' : string) (f : A → value) (v : value)
    (d : ResourceData) :
  k ≠ k' →
  rdSet (match o with Some r => rd_Set k (f r) d | None => rd_Set k v d end) !! k'
  = rdSet d !! k'.
Proof. intros Hne. destruct o; apply rdSet_Set_ne, Hne. Qed.

(** The resource data Read leaves when GetImage succeeds with an image. *)
Lemma image_read_success (meta : AWSClient) (s : State) (out : GetImageOutput)
    (image : Image) :
  let input := {| gii_ImageBuildVersionArn := Some (rdId (st_d s)) |} in
  GetImage (imagebuilderconn meta) (st_calls s) input = (Some out, None) →
  gio_Image out = Some image →
  resourceAwsImageBuilderImageRead meta s
  = let d := st_d s in
    let d := rd_Set "arn" (VStringPtr (img_Arn image)) d in
    let d := match img_ContainerRecipe image with
             | Some r => rd_Set "container_recipe_arn" (VStringPtr (cr_Arn r)) d
             | None => d
             end in
    let d := rd_Set "date_created" (VStringPtr (img_DateCreated image)) d in
    let d := match img_DistributionConfiguration image with
             | Some c => rd_Set "distribution_configuration_arn" (VStringPtr (dc_Arn c)) d
             | None => d
             end in
    let d := rd_Set "enhanced_image_metadata_enabled"
               (VBoolPtr (img_EnhancedImageMetadataEnabled image)) d in
    let d := match img_ImageRecipe image with
             | Some r => rd_Set "image_recipe_arn" (VStringPtr (ir_Arn r)) d
             | None => d
             end in
    let d := match img_ImageTestsConfiguration image with
             | Some c =>
                 rd_Set "image_tests_configuration"
                   (VList (Some [VMap (flattenImageBuilderImageTestsConfiguration (Some c))])) d
             | None => rd_Set "image_tests_configuration" VNil d
             end in
    let d := match img_InfrastructureConfiguration image with
             | Some c => rd_Set "infrastructure_configuration_arn" (VStringPtr (ic_Arn c)) d
             | None => d
             end in
    let d := rd_Set "name" (VStringPtr (img_Name image)) d in
    let d := rd_Set "platform" (VStringPtr (img_Platform image)) d in
    let d := rd_Set "os_version" (VStringPtr (img_OsVersion image)) d in
    let d := match img_OutputResources image with
             | Some o =>
                 rd_Set "output_resources"
                   (VList (Some [VMap (flattenImageBuilderOutputResources (Some o))])) d
             | None => rd_Set "output_resources" VNil d
             end in
    let d := rd_Set "tags"
               (VStringMap (KeyValueTags_Map (IgnoreConfigOf (IgnoreTagsConfig meta)
                  (IgnoreAws (ImagebuilderKeyValueTags (img_Tags image)))))) d in
    let d := rd_Set "version" (VStringPtr (img_Version image)) d in
    Returned None (setData d (addCall (GetImageCall input) s)).
Proof.
  intros input Hget Himg.
  unfold resourceAwsImageBuilderImageRead.
  unfold bind at 1. unfold d_Id, readData.
  unfold bind at 1. unfold issue. fold input. rewrite Hget.
  unfold bind at 1. unfold d_IsNewResource, readData.
  replace (negb (rdIsNew (st_d (addCall (GetImageCall input) s)))
           && ErrCodeEquals None ErrCodeResourceNotFoundException) with false
    by (destruct (rdIsNew _); reflexivity).
  simpl (Some out ≫= gio_Image). rewrite Himg.
  destruct (img_ContainerRecipe image), (img_DistributionConfiguration image),
    (img_ImageRecipe image), (img_ImageTestsConfiguration image),
    (img_InfrastructureConfiguration image), (img_OutputResources image);
    reflexivity.
Qed.

Ltac attribute_lookup :=
  repeat first
    [ rewrite rdSet_Set_eq
    | rewrite rdSet_whenSome_eq
    | rewrite rdSet_either_eq
    | rewrite rdSet_Set_ne by congruence
    | rewrite rdSet_whenSome_ne by congruence
    | rewrite rdSet_either_ne by congruence ];
  try reflexivity.

(** C6, as the code has it.  When GetImage succeeds with a non-nil Image,
    Read returns nil after setting every attribute of the schema from its
    response field, except that each of the four ARN attributes
    (container_recipe_arn, distribution_configuration_arn, image_recipe_arn,
    infrastructure_configuration_arn) is set only when its nested struct is
    non-nil and otherwise keeps its value; image_tests_configuration and
    output_resources are set to a one-element flattened list when their
    field is non-nil and to nil otherwise.  Nothing else changes. *)
Theorem image_read_unmarshals (meta : AWSClient) (s : State) (out : GetImageOutput)
    (image : Image) :
  let d := st_d s in
  let input := {| gii_ImageBuildVersionArn := Some (rdId d) |} in
  GetImage (imagebuilderconn meta) (st_calls s) input = (Some out, None) →
  gio_Image out = Some image →
  ∃ d',
    resourceAwsImageBuilderImageRead meta s
    = Returned None (setData d' (addCall (GetImageCall input) s))
    ∧ rdId d' = rdId d
    ∧ rdSet d' !! "arn" = Some (VStringPtr (img_Arn image))
    ∧ rdSet d' !! "container_recipe_arn"
      = match img_ContainerRecipe image with
        | Some r => Some (VStringPtr (cr_Arn r))
        | None => rdSet d !! "container_recipe_arn"
        end
    ∧ rdSet d' !! "date_created" = Some (VStringPtr (img_DateCreated image))
    ∧ rdSet d' !! "distribution_configuration_arn"
      = match img_DistributionConfiguration image with
        | Some c => Some (VStringPtr (dc_Arn c))
        | None => rdSet d !! "distribution_configuration_arn"
        end
    ∧ rdSet d' !! "enhanced_image_metadata_enabled"
      = Some (VBoolPtr (img_EnhancedImageMetadataEnabled image))
    ∧ rdSet d' !! "image_recipe_arn"
      = match img_ImageRecipe image with
        | Some r => Some (VStringPtr (ir_Arn r))
        | None => rdSet d !! "image_recipe_arn"
        end
    ∧ rdSet d' !! "image_tests_configuration"
      = Some match img_ImageTestsConfiguration image with
             | Some c =>
                 VList (Some [VMap (flattenImageBuilderImageTestsConfiguration (Some c))])
             | None => VNil
             end
    ∧ rdSet d' !! "infrastructure_configuration_arn"
      = match img_InfrastructureConfiguration image with
        | Some c => Some (VStringPtr (ic_Arn c))
        | None => rdSet d !! "infrastructure_configuration_arn"
        end
    ∧ rdSet d' !! "name" = Some (VStringPtr (img_Name image))
    ∧ rdSet d' !! "os_version" = Some (VStringPtr (img_OsVersion image))
    ∧ rdSet d' !! "output_resources"
      = Some match img_OutputResources image with
             | Some o => VList (Some [VMap (flattenImageBuilderOutputResources (Some o))])
             | None => VNil
             end
    ∧ rdSet d' !! "platform" = Some (VStringPtr (img_Platform image))
    ∧ rdSet d' !! "tags"
      = Some (VStringMap (KeyValueTags_Map (IgnoreConfigOf (IgnoreTagsConfig meta)
                (IgnoreAws (ImagebuilderKeyValueTags (img_Tags image))))))
    ∧ rdSet d' !! "version" = Some (VStringPtr (img_Version image))
    ∧ (∀ k, rSchema resourceAwsImageBuilderImage !! k = None →
            rdSet d' !! k = rdSet d !! k).
Proof.
  intros d input Hget Himg.
  eexists. split; [exact (image_read_success meta s out image Hget Himg) |].
  cbv zeta. fold d.
  split.
  { destruct (img_ContainerRecipe image), (img_DistributionConfiguration image),
      (img_ImageRecipe image), (img_ImageTestsConfiguration image),
      (img_InfrastructureConfiguration image), (img_OutputResources image);
      reflexivity. }
  repeat (split; [solve [attribute_lookup] |]).
  intros k Hk.
  assert (Hne : ∀ k', is_Some (rSchema resourceAwsImageBuilderImage !! k') → k' ≠ k).
  { intros k' [sc Hsc] ->. rewrite Hk in Hsc. discriminate. }
  assert (H1 := Hne "arn" ltac:(eexists; reflexivity)).
  assert (H2 := Hne "container_recipe_arn" ltac:(eexists; reflexivity)).
  assert (H3 := Hne "date_created" ltac:(eexists; reflexivity)).
  assert (H4 := Hne "distribution_configuration_arn" ltac:(eexists; reflexivity)).
  assert (H5 := Hne "enhanced_image_metadata_enabled" ltac:(eexists; reflexivity)).
  assert (H6 := Hne "image_recipe_arn" ltac:(eexists; reflexivity)).
  assert (H7 := Hne "image_tests_configuration" ltac:(eexists; reflexivity)).
  assert (H8 := Hne "infrastructure_configuration_arn" ltac:(eexists; reflexivity)).
  assert (H9 := Hne "name" ltac:(eexists; reflexivity)).
  assert (H10 := Hne "os_version" ltac:(eexists; reflexivity)).
  assert (H11 := Hne "output_resources" ltac:(eexists; reflexivity)).
  assert (H12 := Hne "platform" ltac:(eexists; reflexivity)).
  assert (H13 := Hne "tags" ltac:(eexists; reflexivity)).
  assert (H14 := Hne "version" ltac:(eexists; reflexivity)).
  rewrite rdSet_Set_ne by assumption.
  rewrite rdSet_Set_ne by assumption.
  rewrite rdSet_either_ne by assumption.
  rewrite !rdSet_Set_ne by assumption.
  rewrite rdSet_whenSome_ne by assumption.
  rewrite rdSet_either_ne by assumption.
  rewrite rdSet_whenSome_ne by assumption.
  rewrite rdSet_Set_ne by assumption.
  rewrite rdSet_whenSome_ne by assumption.
  rewrite rdSet_Set_ne by assumption.
  rewrite rdSet_whenSome_ne by assumption.
  rewrite rdSet_Set_ne by assumption.
  reflexivity.
Qed.

End Lifecycle.

(** * The properties on examples *)

Lemma image_create_waits_before_read_witness :
  ∃ s3,
    rdId (st_d s3) = exampleImageArn
    ∧ resourceAwsImageBuilderImageCreate availableClient (stateOf newImageData)
      = resourceAwsImageBuilderImageRead availableClient s3
    ∧ rd_Timeout TimeoutCreate newImageData = (60 * Minute)%Z.
Proof.
  edestruct (image_create_waits_before_read availableClient (stateOf newImageData))
    as (Hid & _ & Hok & Ht).
  - reflexivity.
  - reflexivity.
  - eexists. split; [exact Hid |]. split; [exact (Hok eq_refl) | exact (Ht eq_refl)].
Defined.

Lemma create_failure_leaves_id_unset_witness :
  (∃ e s', resourceAwsImageBuilderImageCreate goneClient (stateOf newImageData)
           = Returned (Some e) s'
         ∧ rdId (st_d s') = "")
  ∧ (∃ e s', resourceAwsImageBuilderContainerRecipeCreate goneClient (stateOf newRecipeData)
             = Returned (Some e) s'
           ∧ rdId (st_d s') = "").
Proof.
  destruct (create_failure_leaves_id_unset goneClient (stateOf newImageData)) as [Hi _].
  destruct (create_failure_leaves_id_unset goneClient (stateOf newRecipeData)) as [_ Hr].
  split.
  - edestruct Hi as [Hfail _]; [reflexivity | reflexivity |].
    destruct Hfail as (e & s' & Hrun & Hd); [left; discriminate |].
    exists e, s'. split; [exact Hrun | rewrite Hd; reflexivity].
  - edestruct Hr as [Hfail _]; [reflexivity | reflexivity |].
    destruct Hfail as (e & s' & Hrun & Hd); [right; reflexivity |].
    exists e, s'. split; [exact Hrun | rewrite Hd; reflexivity].
Defined.


Lemma update_only_reconciles_tags_witness :
  ∃ r s',
    resourceAwsImageBuilderImageUpdate availableClient (stateOf storedImageData)
    = Returned r s'
    ∧ List.filter mutating (st_calls s')
      = [UpdateTagsCall exampleImageArn
           (VMap (Some {[ "Team" := VString "infra" ]}))
           (VMap (Some {[ "Team" := VString "platform" ]}))].
Proof.
  destruct (update_only_reconciles_tags availableClient (stateOf storedImageData))
    as [(_ & _ & _ & r & s' & new & Hrun & Hcalls & Hmut) _].
  exists r, s'. split; [exact Hrun |].
  rewrite Hcalls. exact Hmut.
Defined.

Lemma image_read_unmarshals_witness :
  ∃ d',
    resourceAwsImageBuilderImageRead availableClient (stateOf storedImageData)
    = Returned None
        (setData d'
           (addCall (GetImageCall {| gii_ImageBuildVersionArn := Some exampleImageArn |})
              (stateOf storedImageData)))
    ∧ rdSet d' !! "arn" = Some (VStringPtr (Some exampleImageArn))
    ∧ rdSet d' !! "container_recipe_arn" = Some (VStringPtr (Some exampleRecipeArn))
    ∧ rdSet d' !! "image_recipe_arn" = None.
Proof.
  destruct (image_read_unmarshals availableClient (stateOf storedImageData)
              {| gio_Image := Some exampleImage |} exampleImage eq_refl eq_refl)
    as (d' & Hrun & _ & Harn & Hcr & _ & _ & _ & Hir & _).
  exists d'. split; [exact Hrun |]. split; [exact Harn |]. split; [exact Hcr |].
  exact Hir.
Defined.

(** C6 as stated fails: image_recipe_arn is an attribute of the schema outside
    the three named ones, and Read does not set it for an image without an
    image recipe. *)
Lemma image_read_skips_image_recipe_arn :
  ¬ (∀ (C : Collaborators) (meta : AWSClient) (s : State)
       (out : GetImageOutput) (image : Image),
       GetImage (imagebuilderconn meta) (st_calls s)
         {| gii_ImageBuildVersionArn := Some (rdId (st_d s)) |} = (Some out, None) →
       gio_Image out = Some image →
       ∃ s', resourceAwsImageBuilderImageRead meta s = Returned None s'
           ∧ ∀ k, is_Some (rSchema resourceAwsImageBuilderImage !! k) →
                  k ≠ "container_recipe_arn" →
                  k ≠ "distribution_configuration_arn" →
                  k ≠ "infrastructure_configuration_arn" →
                  is_Some (rdSet (st_d s') !! k)).
Proof.
  intros Hall.
  destruct (Hall exampleCollaborators availableClient (stateOf storedImageData)
              {| gio_Image := Some exampleImage |} exampleImage eq_refl eq_refl)
    as (s' & Hrun & Hset).
  rewrite (image_read_success availableClient (stateOf storedImageData)
             {| gio_Image := Some exampleImage |} exampleImage eq_refl eq_refl) in Hrun.
  cbv zeta in Hrun. injection Hrun as <-.
  destruct (Hset "image_recipe_arn") as [v Hv];
    [eexists; reflexivity | discriminate | discriminate | discriminate |].
  vm_compute in Hv. discriminate Hv.
Qed.

Lemma delete_ignores_not_found_witness :
  resourceAwsImageBuilderImageDelete goneClient (stateOf storedImageData)
  = Returned None
      (addCall (DeleteImageCall {| dii_ImageBuildVersionArn := Some exampleImageArn |})
         (stateOf storedImageData)).
Proof.
  destruct (delete_ignores_not_found goneClient (stateOf storedImageData))
    as [(r & Hrun & Hnf & _) _].
  rewrite Hrun, (Hnf eq_refl). reflexivity.
Defined.

Lemma read_not_found_witness :
  resourceAwsImageBuilderImageRead goneClient (stateOf storedImageData)
  = Returned None
      (setData (rd_SetId "" storedImageData)
         (addCall (GetImageCall {| gii_ImageBuildVersionArn := Some exampleImageArn |})
            (stateOf storedImageData))).
Proof.
  destruct (read_not_found goneClient (stateOf storedImageData)) as [Hi _].
  destruct (Hi eq_refl) as [Hold _].
  exact (Hold eq_refl).
Defined.

Lemma flatten_amis_containers_skip_nil_witness :
  flattenImageBuilderAmis (Some [None; None]) = None
  ∧ flattenImageBuilderContainers (H := exampleCollaborators)
      (Some [None; Some {| ctr_ImageUris := None; ctr_Region := Some "us-east-1" |}])
    = Some [VMap (Some {[ "region" := VString "us-east-1" ]})].
Proof.
  destruct (flatten_amis_containers_skip_nil (H := exampleCollaborators))
    as (Ha & Hc & _).
  split.
  - apply (Ha (Some [None; None])). repeat constructor.
  - rewrite (proj2 (Hc _)); [reflexivity |].
    intros Hnil. inversion Hnil as [| ? ? _ Hrest].
    inversion Hrest as [| ? ? Hhd _]. discriminate Hhd.
Defined.

(** * Further properties of the two files *)

Section Further.
Context `{Collaborators}.

Arguments rd_Set : simpl never.
Arguments rd_SetId : simpl never.
Arguments rd_Get : simpl never.

Ltac set_lookup :=
  repeat first
    [ rewrite rdSet_Set_eq
    | rewrite rdSet_whenSome_eq
    | rewrite rdSet_either_eq
    | rewrite rdSet_Set_ne by congruence
    | rewrite rdSet_whenSome_ne by congruence
    | rewrite rdSet_either_ne by congruence ];
  try reflexivity.

(** ** Read of the container recipe on success *)

(** The resource data Read leaves when GetContainerRecipe succeeds with a
    recipe. *)
Lemma container_recipe_read_success (meta : AWSClient) (s : State)
    (out : GetContainerRecipeOutput) (recipe : ContainerRecipe) :
  let input := {| gcri_ContainerRecipeArn := Some (rdId (st_d s)) |} in
  GetContainerRecipe (imagebuilderconn meta) (st_calls s) input = (Some out, None) →
  gcro_ContainerRecipe out = Some recipe →
  resourceAwsImageBuilderContainerRecipeRead meta s
  = let d := st_d s in
    let d := rd_Set "arn" (VStringPtr (cr_Arn recipe)) d in
    let d := rd_Set "component"
               (VList (flattenImageBuilderComponentConfigurations (cr_Components recipe))) d in
    let d := rd_Set "container_type" (VStringPtr (cr_ContainerType recipe)) d in
    let d := rd_Set "date_created" (VStringPtr (cr_DateCreated recipe)) d in
    let d := rd_Set "description" (VStringPtr (cr_Description recipe)) d in
    let d := rd_Set "dockerfile_template_data"
               (VStringPtr (cr_DockerfileTemplateData recipe)) d in
    let d := rd_Set "name" (VStringPtr (cr_Name recipe)) d in
    let d := rd_Set "encrypted" (VBoolPtr (cr_Encrypted recipe)) d in
    let d := rd_Set "kms_key_id" (VStringPtr (cr_KmsKeyId recipe)) d in
    let d := rd_Set "owner" (VStringPtr (cr_Owner recipe)) d in
    let d := rd_Set "parent_image" (VStringPtr (cr_ParentImage recipe)) d in
    let d := rd_Set "platform" (VStringPtr (cr_Platform recipe)) d in
    let d := rd_Set "tags"
               (VStringMap (KeyValueTags_Map (IgnoreConfigOf (IgnoreTagsConfig meta)
                  (IgnoreAws (ImagebuilderKeyValueTags (cr_Tags recipe)))))) d in
    let d := rd_Set "semantic_version" (VStringPtr (cr_Version recipe)) d in
    let d := rd_Set "target_repository"
               (VList (Some [VMap (flattenImageBuilderTargetContainerRepository
                                     (cr_TargetRepository recipe))])) d in
    let d := rd_Set "working_directory" (VStringPtr (cr_WorkingDirectory recipe)) d in
    Returned None (setData d (addCall (GetContainerRecipeCall input) s)).
Proof.
  intros input Hget Hrecipe.
  unfold resourceAwsImageBuilderContainerRecipeRead.
  unfold bind at 1. unfold d_Id, readData.
  unfold bind at 1. unfold issue. fold input. rewrite Hget.
  unfold bind at 1. unfold d_IsNewResource, readData.
  replace (negb (rdIsNew (st_d (addCall (GetContainerRecipeCall input) s)))
           && ErrCodeEquals None ErrCodeResourceNotFoundException) with false
    by (destruct (rdIsNew _); reflexivity).
  simpl (Some out ≫= gcro_ContainerRecipe). rewrite Hrecipe.
  reflexivity.
Qed.

(** X1.  When GetContainerRecipe succeeds with a non-nil recipe, Read returns
    nil, keeps the id, and sets sixteen attributes from the response;
    target_repository is always a one-element list, holding a nil map when
    the response has no target repository.  The schema attributes
    dockerfile_template_uri, image_os_version_override and platform_override
    are never set, and no other key changes. *)
Theorem container_recipe_read_unmarshals (meta : AWSClient) (s : State)
    (out : GetContainerRecipeOutput) (recipe : ContainerRecipe) :
  let d := st_d s in
  let input := {| gcri_ContainerRecipeArn := Some (rdId d) |} in
  GetContainerRecipe (imagebuilderconn meta) (st_calls s) input = (Some out, None) →
  gcro_ContainerRecipe out = Some recipe →
  ∃ d',
    resourceAwsImageBuilderContainerRecipeRead meta s
    = Returned None (setData d' (addCall (GetContainerRecipeCall input) s))
    ∧ rdId d' = rdId d
    ∧ rdSet d' !! "arn" = Some (VStringPtr (cr_Arn recipe))
    ∧ rdSet d' !! "component"
      = Some (VList (flattenImageBuilderComponentConfigurations (cr_Components recipe)))
    ∧ rdSet d' !! "container_type" = Some (VStringPtr (cr_ContainerType recipe))
    ∧ rdSet d' !! "date_created" = Some (VStringPtr (cr_DateCreated recipe))
    ∧ rdSet d' !! "description" = Some (VStringPtr (cr_Description recipe))
    ∧ rdSet d' !! "dockerfile_template_data"
      = Some (VStringPtr (cr_DockerfileTemplateData recipe))
    ∧ rdSet d' !! "encrypted" = Some (VBoolPtr (cr_Encrypted recipe))
    ∧ rdSet d' !! "kms_key_id" = Some (VStringPtr (cr_KmsKeyId recipe))
    ∧ rdSet d' !! "name" = Some (VStringPtr (cr_Name recipe))
    ∧ rdSet d' !! "owner" = Some (VStringPtr (cr_Owner recipe))
    ∧ rdSet d' !! "parent_image" = Some (VStringPtr (cr_ParentImage recipe))
    ∧ rdSet d' !! "platform" = Some (VStringPtr (cr_Platform recipe))
    ∧ rdSet d' !! "semantic_version" = Some (VStringPtr (cr_Version recipe))
    ∧ rdSet d' !! "tags"
      = Some (VStringMap (KeyValueTags_Map (IgnoreConfigOf (IgnoreTagsConfig meta)
                (IgnoreAws (ImagebuilderKeyValueTags (cr_Tags recipe))))))
    ∧ rdSet d' !! "target_repository"
      = Some (VList (Some [VMap (flattenImageBuilderTargetContainerRepository
                                   (cr_TargetRepository recipe))]))
    ∧ rdSet d' !! "working_directory" = Some (VStringPtr (cr_WorkingDirectory recipe))
    ∧ rdSet d' !! "dockerfile_template_uri" = rdSet d !! "dockerfile_template_uri"
    ∧ rdSet d' !! "image_os_version_override" = rdSet d !! "image_os_version_override"
    ∧ rdSet d' !! "platform_override" = rdSet d !! "platform_override"
    ∧ (∀ k, rSchema resourceAwsImageBuilderContainerRecipe !! k = None →
            rdSet d' !! k = rdSet d !! k).
Proof.
  intros d input Hget Hrecipe.
  eexists. split; [exact (container_recipe_read_success meta s out recipe Hget Hrecipe) |].
  cbv zeta. fold d.
  split; [reflexivity |].
  repeat (split; [solve [set_lookup] |]).
  intros k Hk.
  assert (Hne : ∀ k', is_Some (rSchema resourceAwsImageBuilderContainerRecipe !! k') → k' ≠ k).
  { intros k' [sc Hsc] ->. rewrite Hk in Hsc. discriminate. }
  rewrite !rdSet_Set_ne by (apply Hne; eexists; reflexivity).
  reflexivity.
Qed.

(** ** Read on an empty response or on another error *)

(** X2.  When the get call of Read returns no error but a nil output, or an
    output without the resource in it, Read of either resource returns the
    error "empty response" for the stored id and leaves the resource data as
    it was. *)
Theorem read_empty_response (meta : AWSClient) (s : State) :
  (∀ output,
     let input := {| gii_ImageBuildVersionArn := Some (rdId (st_d s)) |} in
     GetImage (imagebuilderconn meta) (st_calls s) input = (output, None) →
     output ≫= gio_Image = None →
     resourceAwsImageBuilderImageRead meta s
     = Returned
         (Some (errorString ("error getting Image Builder Image ("
                               ++ rdId (st_d s) ++ "): empty response")))
         (addCall (GetImageCall input) s))
  ∧
  (∀ output,
     let input := {| gcri_ContainerRecipeArn := Some (rdId (st_d s)) |} in
     GetContainerRecipe (imagebuilderconn meta) (st_calls s) input = (output, None) →
     output ≫= gcro_ContainerRecipe = None →
     resourceAwsImageBuilderContainerRecipeRead meta s
     = Returned
         (Some (errorString ("error getting Image Builder Container Recipe ("
                               ++ rdId (st_d s) ++ "): empty response")))
         (addCall (GetContainerRecipeCall input) s)).
Proof.
  split; intros output input Hget Hnone.
  - unfold resourceAwsImageBuilderImageRead.
    unfold bind at 1. unfold d_Id, readData.
    unfold bind at 1. unfold issue. fold input. rewrite Hget.
    unfold bind at 1. unfold d_IsNewResource, readData.
    replace (negb (rdIsNew (st_d (addCall (GetImageCall input) s)))
             && ErrCodeEquals None ErrCodeResourceNotFoundException) with false
      by (destruct (rdIsNew _); reflexivity).
    rewrite Hnone. reflexivity.
  - unfold resourceAwsImageBuilderContainerRecipeRead.
    unfold bind at 1. unfold d_Id, readData.
    unfold bind at 1. unfold issue. fold input. rewrite Hget.
    unfold bind at 1. unfold d_IsNewResource, readData.
    replace (negb (rdIsNew (st_d (addCall (GetContainerRecipeCall input) s)))
             && ErrCodeEquals None ErrCodeResourceNotFoundException) with false
      by (destruct (rdIsNew _); reflexivity).
    rewrite Hnone. reflexivity.
Qed.

(** X3.  When the get call of Read fails with an error that is not a
    ResourceNotFoundException, Read of either resource returns that error
    wrapped, whether the resource is new or not; the resource data is left as
    it was, the id with it, and the returned error still answers to every
    error code the original answers to. *)
Theorem read_other_error (meta : AWSClient) (s : State) (e : error) :
  errCodeIs e ErrCodeResourceNotFoundException = false →
  (∀ output,
     let input := {| gii_ImageBuildVersionArn := Some (rdId (st_d s)) |} in
     GetImage (imagebuilderconn meta) (st_calls s) input = (output, Some e) →
     ∃ e',
       resourceAwsImageBuilderImageRead meta s
       = Returned (Some e') (addCall (GetImageCall input) s)
       ∧ e' = wrapError ("error getting Image Builder Image (" ++ rdId (st_d s) ++ "): ") e
       ∧ ∀ code, errCodeIs e' code = errCodeIs e code)
  ∧
  (∀ output,
     let input := {| gcri_ContainerRecipeArn := Some (rdId (st_d s)) |} in
     GetContainerRecipe (imagebuilderconn meta) (st_calls s) input = (output, Some e) →
     ∃ e',
       resourceAwsImageBuilderContainerRecipeRead meta s
       = Returned (Some e') (addCall (GetContainerRecipeCall input) s)
       ∧ e' = wrapError ("error getting Image Builder Container Recipe ("
                           ++ rdId (st_d s) ++ "): ") e
       ∧ ∀ code, errCodeIs e' code = errCodeIs e code).
Proof.
  intros Hcode. split; intros output input Hget.
  - eexists. split; [| split; [reflexivity | reflexivity]].
    unfold resourceAwsImageBuilderImageRead.
    unfold bind at 1. unfold d_Id, readData.
    unfold bind at 1. unfold issue. fold input. rewrite Hget.
    unfold bind at 1. unfold d_IsNewResource, readData.
    unfold ErrCodeEquals. rewrite Hcode, andb_false_r. reflexivity.
  - eexists. split; [| split; [reflexivity | reflexivity]].
    unfold resourceAwsImageBuilderContainerRecipeRead.
    unfold bind at 1. unfold d_Id, readData.
    unfold bind at 1. unfold issue. fold input. rewrite Hget.
    unfold bind at 1. unfold d_IsNewResource, readData.
    unfold ErrCodeEquals. rewrite Hcode, andb_false_r. reflexivity.
Qed.

(** ** The request of the image *)

(** X4.  For a configuration whose attributes have the types of the schema,
    Create of the image builds this request: the client token is a newly
    drawn unique id, EnhancedImageMetadataEnabled is always present, each ARN
    attribute is copied when it is a non-empty string and left nil
    otherwise, ImageTestsConfiguration is expanded from the first list
    element when that element is a map and left nil when the list is empty
    or its first element is nil, and Tags is present only for a non-empty
    map. *)
Theorem image_create_request (s : State)
    (b : bool) (cra dca ira ica : string) (tests : option (list value))
    (tags : option (gmap string value)) :
  let d := st_d s in
  rd_Get "enhanced_image_metadata_enabled" d = VBool b →
  rd_Get "container_recipe_arn" d = VString cra →
  rd_Get "distribution_configuration_arn" d = VString dca →
  rd_Get "image_recipe_arn" d = VString ira →
  rd_Get "image_tests_configuration" d = VList tests →
  (∀ x l, tests = Some (x :: l) → x = VNil ∨ ∃ m, x = VMap m) →
  rd_Get "infrastructure_configuration_arn" d = VString ica →
  rd_Get "tags" d = VMap tags →
  imageCreateInput s
  = Returned
      {| cii_ClientToken := Some (uniqueIdOf (st_ids s));
         cii_ContainerRecipeArn := nonEmpty cra;
         cii_DistributionConfigurationArn := nonEmpty dca;
         cii_EnhancedImageMetadataEnabled := Some b;
         cii_ImageRecipeArn := nonEmpty ira;
         cii_ImageTestsConfiguration :=
           match tests with
           | Some (VMap m :: _) => expandImageBuilderImageTestConfiguration m
           | _ => None
           end;
         cii_InfrastructureConfigurationArn := nonEmpty ica;
         cii_Tags :=
           if isZero (VMap tags) then None
           else ImagebuilderTags (IgnoreAws (keyvaluetags_New tags)) |}
      (nextId s).
Proof.
  intros d Hb Hcra Hdca Hira Htests Hfirst Hica Htags.
  unfold imageCreateInput.
  unfold bind at 1. unfold UniqueId.
  unfold bind at 1. unfold d_Get, readData.
  change (st_d (nextId s)) with d. rewrite Hb.
  unfold bind at 1. unfold assertBool, ret.
  rewrite (getOk_string_step _ cra) by exact Hcra.
  rewrite (getOk_string_step _ dca) by exact Hdca.
  rewrite (getOk_string_step _ ira) by exact Hira.
  rewrite getOk_step. change (st_d (nextId s)) with d. rewrite Htests.
  assert (Ht : ∀ B (k : option ImageTestsConfiguration → M B) s',
    bind (if negb (isZero (VList tests))
          then let* l := assertList (VList tests) in
               if Nat.ltb 0 (len l)
               then let* x := index0 l in
                    match x with
                    | VNil => ret None
                    | _ => let* m := assertMap x in
                           ret (expandImageBuilderImageTestConfiguration m)
                    end
               else ret None
          else ret None) k s'
    = k match tests with
        | Some (VMap m :: _) => expandImageBuilderImageTestConfiguration m
        | _ => None
        end s').
  { intros B k s'. destruct tests as [[| x l] |]; try reflexivity.
    destruct (Hfirst x l eq_refl) as [-> | [m ->]]; reflexivity. }
  rewrite Ht. clear Ht.
  rewrite (getOk_string_step _ ica) by exact Hica.
  rewrite getOk_step. change (st_d (nextId s)) with d. rewrite Htags.
  destruct tags as [m |]; [| reflexivity].
  unfold bind, assertMap, ret, isZero, from_option.
  destruct (size m); reflexivity.
Qed.

(** X5.  Create of the container recipe indexes the first element of
    target_repository and asserts it to be a map without testing it for nil
    (Create of the image tests the first element of image_tests_configuration
    first): when the attributes before it are well typed and that first
    element is not a map, building the request panics, and so does Create. *)
Theorem container_recipe_create_panics_without_map (meta : AWSClient) (s : State)
    (comps : option (list value)) (tags : option (gmap string value))
    (ct desc dtd name pimg sv : string) (x : value) (l : list value) :
  let d := st_d s in
  rd_Get "component" d = VList comps →
  rd_Get "container_type" d = VString ct →
  rd_Get "description" d = VString desc →
  rd_Get "dockerfile_template_data" d = VString dtd →
  rd_Get "name" d = VString name →
  rd_Get "parent_image" d = VString pimg →
  rd_Get "tags" d = VMap tags →
  rd_Get "semantic_version" d = VString sv →
  rd_Get "target_repository" d = VList (Some (x :: l)) →
  (∀ m, x ≠ VMap m) →
  containerRecipeCreateInput s = Panicked
  ∧ resourceAwsImageBuilderContainerRecipeCreate meta s = Panicked.
Proof.
  intros d Hcomp Hct Hdesc Hdtd Hname Hpimg Htags Hsv Htrs Hx.
  assert (Hin : containerRecipeCreateInput s = Panicked).
  { unfold containerRecipeCreateInput.
    unfold bind at 1. unfold UniqueId.
    rewrite getOk_step. change (st_d (nextId s)) with d. rewrite Hcomp.
    assert (Hc : ∀ B (k : option (list (option ComponentConfiguration)) → M B) s',
      bind (if negb (isZero (VList comps))
            then let* l := assertList (VList comps) in
                 if Nat.ltb 0 (len l)
                 then ret (expandImageBuilderComponentConfigurations l)
                 else ret None
            else ret None) k s'
      = k (if Nat.ltb 0 (len comps)
           then expandImageBuilderComponentConfigurations comps else None) s').
    { intros B k s'. destruct comps as [[| y ys] |]; reflexivity. }
    rewrite Hc. clear Hc.
    rewrite (getOk_string_step _ ct) by exact Hct.
    rewrite (getOk_string_step _ desc) by exact Hdesc.
    rewrite (getOk_string_step _ dtd) by exact Hdtd.
    rewrite (getOk_string_step _ name) by exact Hname.
    rewrite (getOk_string_step _ pimg) by exact Hpimg.
    rewrite getOk_step. change (st_d (nextId s)) with d. rewrite Htags.
    assert (Ht : ∀ B (k : Tags → M B) s',
      bind (if negb (isZero (VMap tags))
            then let* m := assertMap (VMap tags) in
                 ret (ImagebuilderTags (IgnoreAws (keyvaluetags_New m)))
            else ret None) k s'
      = k (if isZero (VMap tags) then None
           else ImagebuilderTags (IgnoreAws (keyvaluetags_New tags))) s').
    { intros B k s'. destruct tags as [m |]; simpl; [| reflexivity].
      destruct (Nat.eqb (size m) 0); reflexivity. }
    rewrite Ht. clear Ht.
    rewrite (getOk_string_step _ sv) by exact Hsv.
    rewrite getOk_step. change (st_d (nextId s)) with d. rewrite Htrs.
    destruct x; try reflexivity. exfalso. exact (Hx _ eq_refl). }
  split; [exact Hin |].
  unfold resourceAwsImageBuilderContainerRecipeCreate.
  unfold bind at 1. rewrite Hin. reflexivity.
Qed.

(** ** Output resources *)

(** X6.  flattenImageBuilderOutputResources maps nil to nil; for a non-nil
    struct the map has the key "amis" exactly when Amis is a non-nil slice
    and the key "containers" exactly when Containers is one, each holding the
    flattened list, and no other key; a non-nil slice without a non-nil
    element gives the key with a nil list. *)
Theorem flatten_output_resources_keys :
  flattenImageBuilderOutputResources None = None
  ∧ ∀ o : OutputResources,
      ∃ m, flattenImageBuilderOutputResources (Some o) = Some m
        ∧ m !! "amis"
          = match or_Amis o with
            | Some _ => Some (VList (flattenImageBuilderAmis (or_Amis o)))
            | None => None
            end
        ∧ m !! "containers"
          = match or_Containers o with
            | Some _ => Some (VList (flattenImageBuilderContainers (or_Containers o)))
            | None => None
            end
        ∧ (∀ k, k ≠ "amis" → k ≠ "containers" → m !! k = None)
        ∧ (∀ xs, or_Amis o = Some xs → Forall (λ x, x = None) xs →
                 m !! "amis" = Some (VList None))
        ∧ (∀ xs, or_Containers o = Some xs → Forall (λ x, x = None) xs →
                 m !! "containers" = Some (VList None)).
Proof.
  split; [reflexivity |].
  intros [amis containers].
  destruct amis as [xs |], containers as [ys |];
    (eexists; split; [reflexivity |]);
    (split; [reflexivity |]); (split; [reflexivity |]);
    (split; [intros k ? ?; simpl; rewrite ?lookup_insert_ne by congruence;
             apply lookup_empty |]);
    (split; intros zs Hz Hall; simpl in Hz; try discriminate Hz; injection Hz as ->).
  - transitivity (Some (VList (flattenImageBuilderAmis (Some zs)))); [reflexivity |].
    do 2 f_equal. rewrite flattenImageBuilderAmis_spec. simpl.
    apply nonNil_nil_iff in Hall. rewrite Hall. reflexivity.
  - transitivity (Some (VList (flattenImageBuilderContainers (Some zs)))); [reflexivity |].
    do 2 f_equal. rewrite flattenImageBuilderContainers_spec. simpl.
    apply nonNil_nil_iff in Hall. rewrite Hall. reflexivity.
  - transitivity (Some (VList (flattenImageBuilderAmis (Some zs)))); [reflexivity |].
    do 2 f_equal. rewrite flattenImageBuilderAmis_spec. simpl.
    apply nonNil_nil_iff in Hall. rewrite Hall. reflexivity.
  - transitivity (Some (VList (flattenImageBuilderContainers (Some zs)))); [reflexivity |].
    do 2 f_equal. rewrite flattenImageBuilderContainers_spec. simpl.
    apply nonNil_nil_iff in Hall. rewrite Hall. reflexivity.
Qed.

(** ** Target repository: the other direction and normal forms *)

(** X7.  Expand after flatten returns the struct with every field that holds
    the empty string replaced by nil and everything else kept; so it returns
    the struct itself exactly when no field holds the empty string. *)
Theorem expand_flatten_target_repository_erases_empty (a : TargetContainerRepository) :
  expandImageBuilderTargetContainerRepository
    (flattenImageBuilderTargetContainerRepository (Some a))
  = Some {| tcr_RepositoryName :=
              match tcr_RepositoryName a with Some "" => None | o => o end;
            tcr_Service :=
              match tcr_Service a with Some "" => None | o => o end |}
  ∧ (expandImageBuilderTargetContainerRepository
       (flattenImageBuilderTargetContainerRepository (Some a)) = Some a
     ↔ tcr_RepositoryName a ≠ Some "" ∧ tcr_Service a ≠ Some "").
Proof.
  assert (Hform :
    expandImageBuilderTargetContainerRepository
      (flattenImageBuilderTargetContainerRepository (Some a))
    = Some {| tcr_RepositoryName :=
                match tcr_RepositoryName a with Some "" => None | o => o end;
              tcr_Service :=
                match tcr_Service a with Some "" => None | o => o end |}).
  { destruct a as [[r |] [s |]]; simpl;
      unfold expandImageBuilderTargetContainerRepository; simpl;
      rewrite ?lookup_insert_eq, ?(lookup_insert_ne _ "service" "repository_name") by done;
      rewrite ?lookup_insert_eq, ?lookup_empty;
      repeat match goal with
             | |- context [bool_decide (?v ≠ "")] =>
                 destruct v; [rewrite bool_decide_eq_false_2 by (intros Hne; apply Hne; reflexivity)
                             | rewrite bool_decide_eq_true_2 by discriminate]
             end;
      reflexivity. }
  split; [exact Hform |].
  rewrite Hform. destruct a as [[[| c r] |] [[| c' s] |]]; simpl;
    split; try (intros [=]); try (intros [? ?]); try congruence;
    try (split; discriminate); try reflexivity.
Qed.

(** X8.  Expanding is a normal form: flatten after expand, expanded again,
    gives the same struct as the first expand, for every configuration map,
    whatever its keys and the types of its values. *)
Theorem expand_flatten_expand_target_repository (m : option (gmap string value)) :
  expandImageBuilderTargetContainerRepository
    (flattenImageBuilderTargetContainerRepository
       (expandImageBuilderTargetContainerRepository m))
  = expandImageBuilderTargetContainerRepository m.
Proof.
  destruct m as [m |]; [| reflexivity].
  assert (Hfields : ∃ a, expandImageBuilderTargetContainerRepository (Some m) = Some a
                       ∧ tcr_RepositoryName a ≠ Some "" ∧ tcr_Service a ≠ Some "").
  { eexists. split; [reflexivity |]. simpl. split.
    - destruct (m !! "repository_name") as [[] |]; try discriminate.
      case_bool_decide; congruence.
    - destruct (m !! "service") as [[] |]; try discriminate.
      case_bool_decide; congruence. }
  destruct Hfields as (a & -> & Hr & Hs).
  apply expand_flatten_target_repository; assumption.
Qed.

(** ** Create followed by its Read *)

(** X9.  When CreateContainerRecipe and the GetContainerRecipe that follows
    both succeed, Create returns nil after exactly these two calls; the get
    request carries the ARN the create call returned (the empty string for a
    nil ARN), that ARN is the id, and each of the sixteen attributes Read sets
    holds the value of its field in the recipe read back. *)
Theorem container_recipe_create_then_read (meta : AWSClient) (s s1 : State)
    (input : CreateContainerRecipeInput) (out : CreateContainerRecipeOutput)
    (got : GetContainerRecipeOutput) (recipe : ContainerRecipe) :
  let conn := imagebuilderconn meta in
  let arn := StringValue (ccro_ContainerRecipeArn out) in
  let get := {| gcri_ContainerRecipeArn := Some arn |} in
  containerRecipeCreateInput s = Returned input s1 →
  CreateContainerRecipe conn (st_calls s) input = (Some out, None) →
  GetContainerRecipe conn (st_calls s ++ [CreateContainerRecipeCall input])%list get
  = (Some got, None) →
  gcro_ContainerRecipe got = Some recipe →
  ∃ s',
    resourceAwsImageBuilderContainerRecipeCreate meta s = Returned None s'
    ∧ st_calls s'
      = (st_calls s ++ [CreateContainerRecipeCall input; GetContainerRecipeCall get])%list
    ∧ rdId (st_d s') = arn
    ∧ rdSet (st_d s') !! "arn"
      = Some (VStringPtr (cr_Arn recipe))
    ∧ rdSet (st_d s') !! "component"
      = Some (VList (flattenImageBuilderComponentConfigurations (cr_Components recipe)))
    ∧ rdSet (st_d s') !! "container_type"
      = Some (VStringPtr (cr_ContainerType recipe))
    ∧ rdSet (st_d s') !! "date_created"
      = Some (VStringPtr (cr_DateCreated recipe))
    ∧ rdSet (st_d s') !! "description"
      = Some (VStringPtr (cr_Description recipe))
    ∧ rdSet (st_d s') !! "dockerfile_template_data"
      = Some (VStringPtr (cr_DockerfileTemplateData recipe))
    ∧ rdSet (st_d s') !! "encrypted"
      = Some (VBoolPtr (cr_Encrypted recipe))
    ∧ rdSet (st_d s') !! "kms_key_id"
      = Some (VStringPtr (cr_KmsKeyId recipe))
    ∧ rdSet (st_d s') !! "name"
      = Some (VStringPtr (cr_Name recipe))
    ∧ rdSet (st_d s') !! "owner"
      = Some (VStringPtr (cr_Owner recipe))
    ∧ rdSet (st_d s') !! "parent_image"
      = Some (VStringPtr (cr_ParentImage recipe))
    ∧ rdSet (st_d s') !! "platform"
      = Some (VStringPtr (cr_Platform recipe))
    ∧ rdSet (st_d s') !! "semantic_version"
      = Some (VStringPtr (cr_Version recipe))
    ∧ rdSet (st_d s') !! "tags"
      = Some (VStringMap (KeyValueTags_Map (IgnoreConfigOf (IgnoreTagsConfig meta)
                (IgnoreAws (ImagebuilderKeyValueTags (cr_Tags recipe))))))
    ∧ rdSet (st_d s') !! "target_repository"
      = Some (VList (Some [VMap (flattenImageBuilderTargetContainerRepository
                                   (cr_TargetRepository recipe))]))
    ∧ rdSet (st_d s') !! "working_directory"
      = Some (VStringPtr (cr_WorkingDirectory recipe)).
Proof.
  intros conn arn get Hin Hcreate Hget Hrecipe.
  destruct (containerRecipeCreateInput_keepsData _ _ _ Hin) as [Hd Hcalls].
  rewrite (container_recipe_create_cases meta s s1 input Hin). cbv zeta.
  fold conn. rewrite Hcalls, Hcreate. fold arn.
  erewrite (container_recipe_read_success meta _ got recipe); cycle 1.
  { simpl. rewrite Hcalls. exact Hget. }
  { exact Hrecipe. }
  cbv zeta. eexists. split; [reflexivity |].
  cbn [st_d st_calls setData addCall].
  split; [rewrite Hcalls, <- app_assoc; reflexivity |].
  split; [reflexivity |].
  repeat (split; [solve [set_lookup] |]); set_lookup.
Qed.

(** X10.  When CreateImage, the waiter and the GetImage that follows all
    succeed, Create returns nil after exactly these three calls, in this
    order; the waiter and the get request both carry the ARN the create call
    returned, and that ARN is the id. *)
Theorem image_create_then_read (meta : AWSClient) (s s1 : State)
    (input : CreateImageInput) (out : CreateImageOutput)
    (waited : option Image) (got : GetImageOutput) (image : Image) :
  let conn := imagebuilderconn meta in
  let arn := StringValue (cio_ImageBuildVersionArn out) in
  let timeout := rd_Timeout TimeoutCreate (st_d s) in
  let get := {| gii_ImageBuildVersionArn := Some arn |} in
  imageCreateInput s = Returned input s1 →
  CreateImage conn (st_calls s) input = (Some out, None) →
  ImageStatusAvailable conn (st_calls s ++ [CreateImageCall input])%list arn timeout
  = (waited, None) →
  GetImage conn
    (st_calls s ++ [CreateImageCall input; ImageStatusAvailableCall arn timeout])%list get
  = (Some got, None) →
  gio_Image got = Some image →
  ∃ s',
    resourceAwsImageBuilderImageCreate meta s = Returned None s'
    ∧ st_calls s'
      = (st_calls s ++ [CreateImageCall input; ImageStatusAvailableCall arn timeout;
                        GetImageCall get])%list
    ∧ rdId (st_d s') = arn
    ∧ rdSet (st_d s') !! "arn" = Some (VStringPtr (img_Arn image))
    ∧ rdSet (st_d s') !! "version" = Some (VStringPtr (img_Version image)).
Proof.
  intros conn arn timeout get Hin Hcreate Hwait Hget Himage.
  destruct (imageCreateInput_keepsData _ _ _ Hin) as [Hd Hcalls].
  rewrite (image_create_cases meta s s1 input Hin). cbv zeta.
  fold conn. rewrite Hcalls, Hcreate, Hd. fold arn. fold timeout.
  simpl st_calls. rewrite Hcalls, Hwait. simpl snd.
  erewrite (image_read_success meta _ got image); cycle 1.
  { simpl. rewrite Hcalls, <- app_assoc. exact Hget. }
  { exact Himage. }
  cbv zeta. eexists. split; [reflexivity |].
  cbn [st_d st_calls setData addCall].
  split; [rewrite Hcalls, <- !app_assoc; reflexivity |].
  split.
  { destruct (img_ContainerRecipe image), (img_DistributionConfiguration image),
      (img_ImageRecipe image), (img_ImageTestsConfiguration image),
      (img_InfrastructureConfiguration image), (img_OutputResources image);
      reflexivity. }
  split; set_lookup.
Qed.

(** Read when the get call reports the resource as not found. *)
Lemma image_read_gone (meta : AWSClient) (s : State) (output : option GetImageOutput)
    (e : error) :
  let input := {| gii_ImageBuildVersionArn := Some (rdId (st_d s)) |} in
  GetImage (imagebuilderconn meta) (st_calls s) input = (output, Some e) →
  errCodeIs e ErrCodeResourceNotFoundException = true →
  resourceAwsImageBuilderImageRead meta s
  = if rdIsNew (st_d s) then
      Returned (Some (wrapError ("error getting Image Builder Image ("
                                   ++ rdId (st_d s) ++ "): ") e))
        (addCall (GetImageCall input) s)
    else
      Returned None (setData (rd_SetId "" (st_d s)) (addCall (GetImageCall input) s)).
Proof.
  intros input Hget Hcode.
  unfold resourceAwsImageBuilderImageRead.
  unfold bind at 1. unfold d_Id, readData.
  unfold bind at 1. unfold issue. fold input. rewrite Hget.
  unfold bind at 1. unfold d_IsNewResource, readData.
  unfold ErrCodeEquals. rewrite Hcode, andb_true_r.
  cbn [st_d addCall]. destruct (rdIsNew (st_d s)); reflexivity.
Qed.

Lemma container_recipe_read_gone (meta : AWSClient) (s : State)
    (output : option GetContainerRecipeOutput) (e : error) :
  let input := {| gcri_ContainerRecipeArn := Some (rdId (st_d s)) |} in
  GetContainerRecipe (imagebuilderconn meta) (st_calls s) input = (output, Some e) →
  errCodeIs e ErrCodeResourceNotFoundException = true →
  resourceAwsImageBuilderContainerRecipeRead meta s
  = if rdIsNew (st_d s) then
      Returned (Some (wrapError ("error getting Image Builder Container Recipe ("
                                   ++ rdId (st_d s) ++ "): ") e))
        (addCall (GetContainerRecipeCall input) s)
    else
      Returned None
        (setData (rd_SetId "" (st_d s)) (addCall (GetContainerRecipeCall input) s)).
Proof.
  intros input Hget Hcode.
  unfold resourceAwsImageBuilderContainerRecipeRead.
  unfold bind at 1. unfold d_Id, readData.
  unfold bind at 1. unfold issue. fold input. rewrite Hget.
  unfold bind at 1. unfold d_IsNewResource, readData.
  unfold ErrCodeEquals. rewrite Hcode, andb_true_r.
  cbn [st_d addCall]. destruct (rdIsNew (st_d s)); reflexivity.
Qed.

(** X11.  When the create call of the container recipe succeeds and the
    GetContainerRecipe that follows reports ResourceNotFoundException: for a
    resource marked new, Create returns that error wrapped and the id stays
    the returned ARN; for a resource not marked new, Create returns nil with
    the id cleared to the empty string. *)
Theorem container_recipe_create_then_gone (meta : AWSClient) (s s1 : State)
    (input : CreateContainerRecipeInput) (out : CreateContainerRecipeOutput)
    (got : option GetContainerRecipeOutput) (e : error) :
  let conn := imagebuilderconn meta in
  let arn := StringValue (ccro_ContainerRecipeArn out) in
  let get := {| gcri_ContainerRecipeArn := Some arn |} in
  containerRecipeCreateInput s = Returned input s1 →
  CreateContainerRecipe conn (st_calls s) input = (Some out, None) →
  GetContainerRecipe conn (st_calls s ++ [CreateContainerRecipeCall input])%list get
  = (got, Some e) →
  errCodeIs e ErrCodeResourceNotFoundException = true →
  ∃ r s',
    resourceAwsImageBuilderContainerRecipeCreate meta s = Returned r s'
    ∧ (rdIsNew (st_d s) = true →
       r = Some (wrapError ("error getting Image Builder Container Recipe ("
                              ++ arn ++ "): ") e)
       ∧ rdId (st_d s') = arn)
    ∧ (rdIsNew (st_d s) = false → r = None ∧ rdId (st_d s') = "").
Proof.
  intros conn arn get Hin Hcreate Hget Hcode.
  destruct (containerRecipeCreateInput_keepsData _ _ _ Hin) as [Hd Hcalls].
  rewrite (container_recipe_create_cases meta s s1 input Hin). cbv zeta.
  fold conn. rewrite Hcalls, Hcreate. fold arn.
  erewrite (container_recipe_read_gone meta _ got e); cycle 1.
  { cbn [st_d st_calls setData addCall]. rewrite Hcalls. exact Hget. }
  { exact Hcode. }
  cbn [st_d st_calls setData addCall]. rewrite Hd.
  change (rdIsNew (rd_SetId arn (st_d s))) with (rdIsNew (st_d s)).
  destruct (rdIsNew (st_d s)); eexists _, _; (split; [reflexivity |]);
    split; intros Hnew; try discriminate Hnew; split; reflexivity.
Qed.

(** X12.  The same for the image: when CreateImage and the waiter succeed and
    the GetImage that follows reports ResourceNotFoundException, Create of a
    resource marked new returns the error wrapped with the id still the
    returned ARN, and Create of a resource not marked new returns nil with
    the id cleared. *)
Theorem image_create_then_gone (meta : AWSClient) (s s1 : State)
    (input : CreateImageInput) (out : CreateImageOutput)
    (waited : option Image) (got : option GetImageOutput) (e : error) :
  let conn := imagebuilderconn meta in
  let arn := StringValue (cio_ImageBuildVersionArn out) in
  let timeout := rd_Timeout TimeoutCreate (st_d s) in
  let get := {| gii_ImageBuildVersionArn := Some arn |} in
  imageCreateInput s = Returned input s1 →
  CreateImage conn (st_calls s) input = (Some out, None) →
  ImageStatusAvailable conn (st_calls s ++ [CreateImageCall input])%list arn timeout
  = (waited, None) →
  GetImage conn
    (st_calls s ++ [CreateImageCall input; ImageStatusAvailableCall arn timeout])%list get
  = (got, Some e) →
  errCodeIs e ErrCodeResourceNotFoundException = true →
  ∃ r s',
    resourceAwsImageBuilderImageCreate meta s = Returned r s'
    ∧ (rdIsNew (st_d s) = true →
       r = Some (wrapError ("error getting Image Builder Image (" ++ arn ++ "): ") e)
       ∧ rdId (st_d s') = arn)
    ∧ (rdIsNew (st_d s) = false → r = None ∧ rdId (st_d s') = "").
Proof.
  intros conn arn timeout get Hin Hcreate Hwait Hget Hcode.
  destruct (imageCreateInput_keepsData _ _ _ Hin) as [Hd Hcalls].
  rewrite (image_create_cases meta s s1 input Hin). cbv zeta.
  fold conn. rewrite Hcalls, Hcreate, Hd. fold arn. fold timeout.
  cbn [st_d st_calls setData addCall]. rewrite Hcalls, Hwait. cbn [snd].
  erewrite (image_read_gone meta _ got e); cycle 1.
  { cbn [st_d st_calls setData addCall]. rewrite Hcalls, <- app_assoc. exact Hget. }
  { exact Hcode. }
  cbn [st_d st_calls setData addCall].
  change (rdIsNew (rd_SetId arn (st_d s))) with (rdIsNew (st_d s)).
  destruct (rdIsNew (st_d s)); eexists _, _; (split; [reflexivity |]);
    split; intros Hnew; try discriminate Hnew; split; reflexivity.
Qed.

(** ** Reading twice *)

Lemma rd_Set_writes (k : string) (v : value) (d : ResourceData) :
  rd_Set k v d = writes {[ k := v ]} d.
Proof. unfold rd_Set, writes. f_equal. apply insert_union_singleton_l. Qed.

Lemma writes_empty (d : ResourceData) : writes ∅ d = d.
Proof. destruct d. unfold writes. simpl. f_equal. apply (left_id_L ∅ (∪)). Qed.

Lemma writes_writes (w1 w2 : gmap string value) (d : ResourceData) :
  writes w1 (writes w2 d) = writes (w1 ∪ w2) d.
Proof. unfold writes. simpl. f_equal. apply (assoc_L (∪)). Qed.

Lemma writes_twice (w : gmap string value) (d : ResourceData) :
  writes w (writes w d) = writes w d.
Proof. rewrite writes_writes. f_equal. apply (idemp_L (∪)). Qed.

Lemma whenSome_writes {A} (o : option A) (k : string) (f : A → value) (d : ResourceData) :
  match o with Some r => rd_Set k (f r) d | None => d end
  = writes (match o with Some r => {[ k := f r ]} | None => ∅ end) d.
Proof. destruct o; [apply rd_Set_writes | symmetry; apply writes_empty]. Qed.

Lemma either_writes {A} (o : option A) (k : string) (f : A → value) (v : value)
    (d : ResourceData) :
  match o with Some r => rd_Set k (f r) d | None => rd_Set k v d end
  = writes {[ k := match o with Some r => f r | None => v end ]} d.
Proof. destruct o; apply rd_Set_writes. Qed.

(** What Read of the image writes depends on the response only. *)
Lemma image_read_writes (meta : AWSClient) (image : Image) :
  ∃ w : gmap string value,
    ∀ (s : State) (out : GetImageOutput),
      let input := {| gii_ImageBuildVersionArn := Some (rdId (st_d s)) |} in
      GetImage (imagebuilderconn meta) (st_calls s) input = (Some out, None) →
      gio_Image out = Some image →
      resourceAwsImageBuilderImageRead meta s
      = Returned None (setData (writes w (st_d s)) (addCall (GetImageCall input) s)).
Proof.
  eexists. intros s out input Hget Himage.
  rewrite (image_read_success meta s out image Hget Himage). cbv zeta.
  rewrite !either_writes, !whenSome_writes, !rd_Set_writes, !writes_writes.
  reflexivity.
Qed.

Lemma container_recipe_read_writes (meta : AWSClient) (recipe : ContainerRecipe) :
  ∃ w : gmap string value,
    ∀ (s : State) (out : GetContainerRecipeOutput),
      let input := {| gcri_ContainerRecipeArn := Some (rdId (st_d s)) |} in
      GetContainerRecipe (imagebuilderconn meta) (st_calls s) input = (Some out, None) →
      gcro_ContainerRecipe out = Some recipe →
      resourceAwsImageBuilderContainerRecipeRead meta s
      = Returned None
          (setData (writes w (st_d s)) (addCall (GetContainerRecipeCall input) s)).
Proof.
  eexists. intros s out input Hget Hrecipe.
  rewrite (container_recipe_read_success meta s out recipe Hget Hrecipe). cbv zeta.
  rewrite !rd_Set_writes, !writes_writes.
  reflexivity.
Qed.

(** X13.  Read is idempotent: when two Reads in a row of either resource get
    the same successful response, the second returns nil like the first and
    leaves the resource data exactly as the first left it. *)
Theorem read_twice_same_data (meta : AWSClient) (s : State) :
  (∀ (out : GetImageOutput) (image : Image),
     let input := {| gii_ImageBuildVersionArn := Some (rdId (st_d s)) |} in
     GetImage (imagebuilderconn meta) (st_calls s) input = (Some out, None) →
     GetImage (imagebuilderconn meta) (st_calls s ++ [GetImageCall input])%list input
     = (Some out, None) →
     gio_Image out = Some image →
     ∃ s1 s2,
       resourceAwsImageBuilderImageRead meta s = Returned None s1
       ∧ resourceAwsImageBuilderImageRead meta s1 = Returned None s2
       ∧ st_d s2 = st_d s1)
  ∧
  (∀ (out : GetContainerRecipeOutput) (recipe : ContainerRecipe),
     let input := {| gcri_ContainerRecipeArn := Some (rdId (st_d s)) |} in
     GetContainerRecipe (imagebuilderconn meta) (st_calls s) input = (Some out, None) →
     GetContainerRecipe (imagebuilderconn meta)
       (st_calls s ++ [GetContainerRecipeCall input])%list input
     = (Some out, None) →
     gcro_ContainerRecipe out = Some recipe →
     ∃ s1 s2,
       resourceAwsImageBuilderContainerRecipeRead meta s = Returned None s1
       ∧ resourceAwsImageBuilderContainerRecipeRead meta s1 = Returned None s2
       ∧ st_d s2 = st_d s1).
Proof.
  split.
  - intros out image input Hget1 Hget2 Himage.
    destruct (image_read_writes meta image) as [w Hw].
    set (s1 := setData (writes w (st_d s)) (addCall (GetImageCall input) s)).
    exists s1. eexists. split; [exact (Hw s out Hget1 Himage) |].
    split; [exact (Hw s1 out Hget2 Himage) |].
    cbn [st_d setData addCall]. apply writes_twice.
  - intros out recipe input Hget1 Hget2 Hrecipe.
    destruct (container_recipe_read_writes meta recipe) as [w Hw].
    set (s1 := setData (writes w (st_d s)) (addCall (GetContainerRecipeCall input) s)).
    exists s1. eexists. split; [exact (Hw s out Hget1 Hrecipe) |].
    split; [exact (Hw s1 out Hget2 Hrecipe) |].
    cbn [st_d setData addCall]. apply writes_twice.
Qed.

(** ** From the configuration to the state and back *)

(** X14.  A target_repository block survives an apply: when the recipe read
    back holds the struct that expand builds from a block whose only keys
    are "repository_name" and "service", both non-empty strings, Read stores
    for target_repository the one-element list holding exactly that block. *)
Theorem target_repository_survives_read (meta : AWSClient) (s : State)
    (out : GetContainerRecipeOutput) (recipe : ContainerRecipe)
    (m : gmap string value) (name service : string) :
  let input := {| gcri_ContainerRecipeArn := Some (rdId (st_d s)) |} in
  GetContainerRecipe (imagebuilderconn meta) (st_calls s) input = (Some out, None) →
  gcro_ContainerRecipe out = Some recipe →
  cr_TargetRepository recipe = expandImageBuilderTargetContainerRepository (Some m) →
  m !! "repository_name" = Some (VString name) → name ≠ "" →
  m !! "service" = Some (VString service) → service ≠ "" →
  (∀ k, k ≠ "repository_name" → k ≠ "service" → m !! k = None) →
  ∃ d',
    resourceAwsImageBuilderContainerRecipeRead meta s
    = Returned None (setData d' (addCall (GetContainerRecipeCall input) s))
    ∧ rdSet d' !! "target_repository" = Some (VList (Some [VMap (Some m)])).
Proof.
  intros input Hget Hrecipe Hrepo Hname Hname0 Hservice Hservice0 Hkeys.
  eexists. split; [exact (container_recipe_read_success meta s out recipe Hget Hrecipe) |].
  cbv zeta. set_lookup.
  rewrite Hrepo.
  rewrite (flatten_expand_target_repository m name service) by assumption.
  reflexivity.
Qed.

(** ** What a nil or an error result tells *)

(** X15.  Delete of either resource returns an error only when its delete
    call failed with an error that is not a ResourceNotFoundException; the
    error returned is that error wrapped, and the resource data is as
    before. *)
Theorem delete_fails_only_on_api_error (meta : AWSClient) (s : State) (e' : error)
    (s' : State) :
  (resourceAwsImageBuilderImageDelete meta s = Returned (Some e') s' →
   ∃ e,
     DeleteImage (imagebuilderconn meta) (st_calls s)
       {| dii_ImageBuildVersionArn := Some (rdId (st_d s)) |} = Some e
     ∧ errCodeIs e ErrCodeResourceNotFoundException = false
     ∧ e' = wrapError ("error deleting Image Builder Image (" ++ rdId (st_d s) ++ "): ") e
     ∧ st_d s' = st_d s)
  ∧
  (resourceAwsImageBuilderContainerRecipeDelete meta s = Returned (Some e') s' →
   ∃ e,
     DeleteContainerRecipe (imagebuilderconn meta) (st_calls s)
       {| dcri_ContainerRecipeArn := Some (rdId (st_d s)) |} = Some e
     ∧ errCodeIs e ErrCodeResourceNotFoundException = false
     ∧ e' = wrapError ("error deleting Image Builder Image Recipe ("
                         ++ rdId (st_d s) ++ "): ") e
     ∧ st_d s' = st_d s).
Proof.
  split.
  - unfold resourceAwsImageBuilderImageDelete, bind, d_Id, readData, issue, ret.
    destruct (DeleteImage _ _ _) as [e |]; cbn [ErrCodeEquals]; [| discriminate].
    destruct (errCodeIs e ErrCodeResourceNotFoundException) eqn:Hcode; [discriminate |].
    intros [= <- <-]. exists e. repeat split; assumption.
  - unfold resourceAwsImageBuilderContainerRecipeDelete, bind, d_Id, readData, issue, ret.
    destruct (DeleteContainerRecipe _ _ _) as [e |]; cbn [ErrCodeEquals]; [| discriminate].
    destruct (errCodeIs e ErrCodeResourceNotFoundException) eqn:Hcode; [discriminate |].
    intros [= <- <-]. exists e. repeat split; assumption.
Qed.

(** X16.  Create of either resource returns nil only when its create call
    answered with a non-nil output and no error, for the image the waiter
    then returned no error, and the Read that ran from the id set to the
    returned ARN returned nil, in the state Create ends in. *)
Theorem create_nil_only_after_read (meta : AWSClient) (s s' : State) :
  (resourceAwsImageBuilderImageCreate meta s = Returned None s' →
   ∃ input s1 out waited,
     let conn := imagebuilderconn meta in
     let arn := StringValue (cio_ImageBuildVersionArn out) in
     let timeout := rd_Timeout TimeoutCreate (st_d s) in
     let s2 := setData (rd_SetId arn (st_d s)) (addCall (CreateImageCall input) s1) in
     imageCreateInput s = Returned input s1
     ∧ CreateImage conn (st_calls s) input = (Some out, None)
     ∧ ImageStatusAvailable conn (st_calls s2) arn timeout = (waited, None)
     ∧ resourceAwsImageBuilderImageRead meta
         (addCall (ImageStatusAvailableCall arn timeout) s2) = Returned None s')
  ∧
  (resourceAwsImageBuilderContainerRecipeCreate meta s = Returned None s' →
   ∃ input s1 out,
     let conn := imagebuilderconn meta in
     let arn := StringValue (ccro_ContainerRecipeArn out) in
     containerRecipeCreateInput s = Returned input s1
     ∧ CreateContainerRecipe conn (st_calls s) input = (Some out, None)
     ∧ resourceAwsImageBuilderContainerRecipeRead meta
         (setData (rd_SetId arn (st_d s)) (addCall (CreateContainerRecipeCall input) s1))
       = Returned None s').
Proof.
  split.
  - destruct (imageCreateInput s) as [input s1 |] eqn:Hin.
    2: { unfold resourceAwsImageBuilderImageCreate. unfold bind at 1.
         rewrite Hin. discriminate. }
    destruct (imageCreateInput_keepsData _ _ _ Hin) as [Hd Hcalls].
    rewrite (image_create_cases meta s s1 input Hin). cbv zeta.
    rewrite Hcalls, Hd.
    destruct (CreateImage _ _ _) as [[out |] [e |]] eqn:Hcreate; try discriminate.
    destruct (ImageStatusAvailable _ _ _ _) as [waited [e |]] eqn:Hwait;
      cbn [snd]; [discriminate |].
    intros Hread. exists input, s1, out, waited. cbv zeta.
    repeat split; assumption.
  - destruct (containerRecipeCreateInput s) as [input s1 |] eqn:Hin.
    2: { unfold resourceAwsImageBuilderContainerRecipeCreate. unfold bind at 1.
         rewrite Hin. discriminate. }
    destruct (containerRecipeCreateInput_keepsData _ _ _ Hin) as [Hd Hcalls].
    rewrite (container_recipe_create_cases meta s s1 input Hin). cbv zeta.
    rewrite Hcalls, Hd.
    destruct (CreateContainerRecipe _ _ _) as [[out |] [e |]] eqn:Hcreate;
      try discriminate.
    intros Hread. exists input, s1, out. cbv zeta.
    repeat split; assumption.
Qed.

(** ** What the requests never carry *)

Ltac invert_bind H :=
  repeat first
    [ progress cbv beta in H
    | match type of H with
      | bind ?m ?k ?s = Returned _ _ =>
          unfold bind in H at 1;
          let E := fresh "E" in
          destruct (m s) as [? ? |] eqn:E; [| discriminate H]
      | (let '(_, _) := ?p in _) _ = Returned _ _ => destruct p
      end ].

(** X18.  Whatever the configuration holds, a request that Create of the
    container recipe builds never carries DockerfileTemplateUri,
    ImageOsVersionOverride, KmsKeyId or PlatformOverride, though the schema
    declares attributes for the four; and its client token is the unique id
    drawn at the start. *)
Theorem container_recipe_request_never_carries (s s1 : State)
    (input : CreateContainerRecipeInput) :
  containerRecipeCreateInput s = Returned input s1 →
  ccri_DockerfileTemplateUri input = None
  ∧ ccri_ImageOsVersionOverride input = None
  ∧ ccri_KmsKeyId input = None
  ∧ ccri_PlatformOverride input = None
  ∧ ccri_ClientToken input = Some (uniqueIdOf (st_ids s))
  ∧ (∀ k, k ∈ ["dockerfile_template_uri"; "image_os_version_override"; "kms_key_id";
               "platform_override"] →
          is_Some (rSchema resourceAwsImageBuilderContainerRecipe !! k)).
Proof.
  intros Hin. unfold containerRecipeCreateInput in Hin.
  invert_bind Hin.
  injection Hin as <- _.
  match goal with
  | E : UniqueId s = Returned _ _ |- _ => injection E as <- _
  end.
  repeat (split; [reflexivity |]).
  intros k Hk.
  repeat (apply elem_of_cons in Hk as [-> | Hk]; [eexists; reflexivity |]).
  apply elem_of_nil in Hk. contradiction.
Qed.

(** ** Update followed by its Read *)

(** X19.  When the tag helper, if called, returns no error and the get call
    that follows succeeds, Update of either resource returns nil; its calls
    are the tag call, only when "tags" changed, and then the get call for the
    stored id; the id is kept, and every attribute Read sets holds the value
    of its field in the response (the fourteen of the image, each of the four
    ARN attributes only when its nested struct is non-nil and unchanged
    otherwise, and the sixteen of the container recipe). *)
Theorem update_then_read (meta : AWSClient) (s : State) :
  let conn := imagebuilderconn meta in
  let d := st_d s in
  let id := rdId d in
  let o := fst (rd_GetChange "tags" d) in
  let n := snd (rd_GetChange "tags" d) in
  let tagCalls := if rd_HasChange "tags" d then [UpdateTagsCall id o n] else [] in
  (rd_HasChange "tags" d = true → ImagebuilderUpdateTags conn (st_calls s) id o n = None) →
  (∀ (out : GetImageOutput) (image : Image),
     let get := {| gii_ImageBuildVersionArn := Some id |} in
     GetImage conn (st_calls s ++ tagCalls)%list get = (Some out, None) →
     gio_Image out = Some image →
     ∃ s',
       resourceAwsImageBuilderImageUpdate meta s = Returned None s'
       ∧ st_calls s' = (st_calls s ++ tagCalls ++ [GetImageCall get])%list
       ∧ rdId (st_d s') = id
       ∧ rdSet (st_d s') !! "arn"
         = Some (VStringPtr (img_Arn image))
       ∧ rdSet (st_d s') !! "container_recipe_arn"
         = match img_ContainerRecipe image with
           | Some r => Some (VStringPtr (cr_Arn r))
           | None => rdSet d !! "container_recipe_arn"
           end
       ∧ rdSet (st_d s') !! "date_created"
         = Some (VStringPtr (img_DateCreated image))
       ∧ rdSet (st_d s') !! "distribution_configuration_arn"
         = match img_DistributionConfiguration image with
           | Some c => Some (VStringPtr (dc_Arn c))
           | None => rdSet d !! "distribution_configuration_arn"
           end
       ∧ rdSet (st_d s') !! "enhanced_image_metadata_enabled"
         = Some (VBoolPtr (img_EnhancedImageMetadataEnabled image))
       ∧ rdSet (st_d s') !! "image_recipe_arn"
         = match img_ImageRecipe image with
           | Some r => Some (VStringPtr (ir_Arn r))
           | None => rdSet d !! "image_recipe_arn"
           end
       ∧ rdSet (st_d s') !! "image_tests_configuration"
         = Some match img_ImageTestsConfiguration image with
                | Some c =>
                    VList (Some [VMap (flattenImageBuilderImageTestsConfiguration (Some c))])
                | None => VNil
                end
       ∧ rdSet (st_d s') !! "infrastructure_configuration_arn"
         = match img_InfrastructureConfiguration image with
           | Some c => Some (VStringPtr (ic_Arn c))
           | None => rdSet d !! "infrastructure_configuration_arn"
           end
       ∧ rdSet (st_d s') !! "name"
         = Some (VStringPtr (img_Name image))
       ∧ rdSet (st_d s') !! "os_version"
         = Some (VStringPtr (img_OsVersion image))
       ∧ rdSet (st_d s') !! "output_resources"
         = Some match img_OutputResources image with
                | Some o => VList (Some [VMap (flattenImageBuilderOutputResources (Some o))])
                | None => VNil
                end
       ∧ rdSet (st_d s') !! "platform"
         = Some (VStringPtr (img_Platform image))
       ∧ rdSet (st_d s') !! "tags"
         = Some (VStringMap (KeyValueTags_Map (IgnoreConfigOf (IgnoreTagsConfig meta)
                   (IgnoreAws (ImagebuilderKeyValueTags (img_Tags image))))))
       ∧ rdSet (st_d s') !! "version"
         = Some (VStringPtr (img_Version image)))
  ∧
  (∀ (out : GetContainerRecipeOutput) (recipe : ContainerRecipe),
     let get := {| gcri_ContainerRecipeArn := Some id |} in
     GetContainerRecipe conn (st_calls s ++ tagCalls)%list get = (Some out, None) →
     gcro_ContainerRecipe out = Some recipe →
     ∃ s',
       resourceAwsImageBuilderContainerRecipeUpdate meta s = Returned None s'
       ∧ st_calls s' = (st_calls s ++ tagCalls ++ [GetContainerRecipeCall get])%list
       ∧ rdId (st_d s') = id
       ∧ rdSet (st_d s') !! "arn"
         = Some (VStringPtr (cr_Arn recipe))
       ∧ rdSet (st_d s') !! "component"
         = Some (VList (flattenImageBuilderComponentConfigurations (cr_Components recipe)))
       ∧ rdSet (st_d s') !! "container_type"
         = Some (VStringPtr (cr_ContainerType recipe))
       ∧ rdSet (st_d s') !! "date_created"
         = Some (VStringPtr (cr_DateCreated recipe))
       ∧ rdSet (st_d s') !! "description"
         = Some (VStringPtr (cr_Description recipe))
       ∧ rdSet (st_d s') !! "dockerfile_template_data"
         = Some (VStringPtr (cr_DockerfileTemplateData recipe))
       ∧ rdSet (st_d s') !! "encrypted"
         = Some (VBoolPtr (cr_Encrypted recipe))
       ∧ rdSet (st_d s') !! "kms_key_id"
         = Some (VStringPtr (cr_KmsKeyId recipe))
       ∧ rdSet (st_d s') !! "name"
         = Some (VStringPtr (cr_Name recipe))
       ∧ rdSet (st_d s') !! "owner"
         = Some (VStringPtr (cr_Owner recipe))
       ∧ rdSet (st_d s') !! "parent_image"
         = Some (VStringPtr (cr_ParentImage recipe))
       ∧ rdSet (st_d s') !! "platform"
         = Some (VStringPtr (cr_Platform recipe))
       ∧ rdSet (st_d s') !! "semantic_version"
         = Some (VStringPtr (cr_Version recipe))
       ∧ rdSet (st_d s') !! "tags"
         = Some (VStringMap (KeyValueTags_Map (IgnoreConfigOf (IgnoreTagsConfig meta)
                   (IgnoreAws (ImagebuilderKeyValueTags (cr_Tags recipe))))))
       ∧ rdSet (st_d s') !! "target_repository"
         = Some (VList (Some [VMap (flattenImageBuilderTargetContainerRepository
                                      (cr_TargetRepository recipe))]))
       ∧ rdSet (st_d s') !! "working_directory"
         = Some (VStringPtr (cr_WorkingDirectory recipe))).
Proof.
  intros conn d id o n tagCalls Htag. split.
  - intros out image get Hget Himage.
    rewrite (image_update_cases meta s). cbv zeta. fold d id o n conn.
    subst tagCalls. destruct (rd_HasChange "tags" d).
    + rewrite (Htag eq_refl).
      erewrite (image_read_success meta _ out image); cycle 1.
      { exact Hget. } { exact Himage. }
      cbv zeta. eexists. split; [reflexivity |].
      cbn [st_d st_calls setData addCall].
      split; [rewrite <- app_assoc; reflexivity |].
      split.
      { destruct (img_ContainerRecipe image), (img_DistributionConfiguration image),
          (img_ImageRecipe image), (img_ImageTestsConfiguration image),
          (img_InfrastructureConfiguration image), (img_OutputResources image);
          reflexivity. }
      repeat (split; [solve [set_lookup] |]); set_lookup.
    + rewrite app_nil_r in Hget.
      erewrite (image_read_success meta _ out image); cycle 1.
      { exact Hget. } { exact Himage. }
      cbv zeta. eexists. split; [reflexivity |].
      cbn [st_d st_calls setData addCall].
      split; [reflexivity |].
      split.
      { destruct (img_ContainerRecipe image), (img_DistributionConfiguration image),
          (img_ImageRecipe image), (img_ImageTestsConfiguration image),
          (img_InfrastructureConfiguration image), (img_OutputResources image);
          reflexivity. }
      repeat (split; [solve [set_lookup] |]); set_lookup.
  - intros out recipe get Hget Hrecipe.
    rewrite (container_recipe_update_cases meta s). cbv zeta. fold d id o n conn.
    subst tagCalls. destruct (rd_HasChange "tags" d).
    + rewrite (Htag eq_refl).
      erewrite (container_recipe_read_success meta _ out recipe); cycle 1.
      { exact Hget. } { exact Hrecipe. }
      cbv zeta. eexists. split; [reflexivity |].
      cbn [st_d st_calls setData addCall].
      split; [rewrite <- app_assoc; reflexivity |].
      split; [reflexivity |].
      repeat (split; [solve [set_lookup] |]); set_lookup.
    + rewrite app_nil_r in Hget.
      erewrite (container_recipe_read_success meta _ out recipe); cycle 1.
      { exact Hget. } { exact Hrecipe. }
      cbv zeta. eexists. split; [reflexivity |].
      cbn [st_d st_calls setData addCall].
      split; [reflexivity |].
      split; [reflexivity |].
      repeat (split; [solve [set_lookup] |]); set_lookup.
Qed.

End Further.

(** ** What can change in place *)





(** * The further properties on examples *)

Lemma container_recipe_read_unmarshals_witness :
  ∃ d',
    resourceAwsImageBuilderContainerRecipeRead availableClient (stateOf storedRecipeData)
    = Returned None
        (setData d'
           (addCall (GetContainerRecipeCall
                       {| gcri_ContainerRecipeArn := Some exampleRecipeArn |})
              (stateOf storedRecipeData)))
    ∧ rdSet d' !! "arn" = Some (VStringPtr (Some exampleRecipeArn))
    ∧ rdSet d' !! "platform_override" = None.
Proof.
  edestruct (container_recipe_read_unmarshals availableClient (stateOf storedRecipeData))
    as (d' & Hrun & _ & Harn & _ & _ & _ & _ & _ & _ & _ & _ & _ & _ & _ & _ & _ & _ & _
        & _ & _ & Hpo & _); [reflexivity | reflexivity |].
  exists d'. split; [exact Hrun |]. split; [exact Harn | exact Hpo].
Defined.

Lemma read_empty_response_witness :
  resourceAwsImageBuilderImageRead emptyClient (stateOf storedImageData)
  = Returned
      (Some (errorString ("error getting Image Builder Image ("
                            ++ exampleImageArn ++ "): empty response")))
      (addCall (GetImageCall {| gii_ImageBuildVersionArn := Some exampleImageArn |})
         (stateOf storedImageData)).
Proof.
  exact (proj1 (read_empty_response emptyClient (stateOf storedImageData))
           (Some {| gio_Image := None |}) eq_refl eq_refl).
Defined.

Lemma read_other_error_witness :
  ∃ e',
    resourceAwsImageBuilderContainerRecipeRead deniedClient (stateOf storedRecipeData)
    = Returned (Some e')
        (addCall (GetContainerRecipeCall
                    {| gcri_ContainerRecipeArn := Some exampleRecipeArn |})
           (stateOf storedRecipeData))
    ∧ errCodeIs e' "AccessDeniedException" = true.
Proof.
  destruct (proj2 (read_other_error deniedClient (stateOf storedRecipeData)
                     (awserr "AccessDeniedException" "not allowed") eq_refl)
              None eq_refl) as (e' & Hrun & _ & Hcode).
  exists e'. split; [exact Hrun |]. rewrite Hcode. reflexivity.
Defined.

Lemma image_create_request_witness :
  ∃ input,
    imageCreateInput (H := exampleCollaborators) (stateOf newImageData)
    = Returned input (nextId (stateOf newImageData))
    ∧ cii_ClientToken input = Some "terraform-0"
    ∧ cii_EnhancedImageMetadataEnabled input = Some true
    ∧ cii_ContainerRecipeArn input = Some exampleRecipeArn
    ∧ cii_ImageRecipeArn input = None
    ∧ cii_ImageTestsConfiguration input = None
    ∧ cii_Tags input = None.
Proof.
  eexists. split.
  - apply (image_create_request (H := exampleCollaborators) (stateOf newImageData));
      try reflexivity.
    intros x l [=].
  - repeat split.
Defined.

Lemma container_recipe_create_panics_without_map_witness :
  resourceAwsImageBuilderContainerRecipeCreate availableClient
    (stateOf nilRepositoryRecipeData) = Panicked.
Proof.
  refine (proj2 (container_recipe_create_panics_without_map availableClient
                   (stateOf nilRepositoryRecipeData) _ _ _ _ _ _ _ _ VNil []
                   eq_refl eq_refl eq_refl eq_refl eq_refl eq_refl eq_refl eq_refl
                   eq_refl _)).
  intros m. discriminate.
Defined.

Lemma flatten_output_resources_keys_witness :
  ∃ m,
    flattenImageBuilderOutputResources (H := exampleCollaborators)
      (Some {| or_Amis := Some [None]; or_Containers := None |}) = Some m
    ∧ m !! "amis" = Some (VList None)
    ∧ m !! "containers" = None.
Proof.
  destruct (proj2 (flatten_output_resources_keys (H := exampleCollaborators))
              {| or_Amis := Some [None]; or_Containers := None |})
    as (m & Hm & _ & Hc & _ & Ha & _).
  exists m. split; [exact Hm |]. split; [| exact Hc].
  apply (Ha [None] eq_refl). repeat constructor.
Defined.

Lemma container_recipe_create_then_read_witness :
  ∃ s',
    resourceAwsImageBuilderContainerRecipeCreate availableClient (stateOf newRecipeData)
    = Returned None s'
    ∧ List.length (st_calls s') = 2
    ∧ rdId (st_d s') = exampleRecipeArn.
Proof.
  edestruct (container_recipe_create_then_read availableClient (stateOf newRecipeData))
    as (s' & Hrun & Hcalls & Hid & _);
    [reflexivity | reflexivity | reflexivity | reflexivity |].
  exists s'. split; [exact Hrun |]. split; [rewrite Hcalls; reflexivity | exact Hid].
Defined.

Lemma image_create_then_read_witness :
  ∃ s',
    resourceAwsImageBuilderImageCreate availableClient (stateOf newImageData)
    = Returned None s'
    ∧ List.length (st_calls s') = 3
    ∧ rdId (st_d s') = exampleImageArn.
Proof.
  edestruct (image_create_then_read availableClient (stateOf newImageData))
    as (s' & Hrun & Hcalls & Hid & _);
    [reflexivity | reflexivity | reflexivity | reflexivity | reflexivity |].
  exists s'. split; [exact Hrun |]. split; [rewrite Hcalls; reflexivity | exact Hid].
Defined.

Lemma container_recipe_create_then_gone_witness :
  ∃ e s',
    resourceAwsImageBuilderContainerRecipeCreate vanishingClient (stateOf newRecipeData)
    = Returned (Some e) s'
    ∧ rdId (st_d s') = exampleRecipeArn.
Proof.
  edestruct (container_recipe_create_then_gone vanishingClient (stateOf newRecipeData))
    as (r & s' & Hrun & Hnew & _);
    [reflexivity | reflexivity | reflexivity | reflexivity |].
  destruct (Hnew eq_refl) as [-> Hid].
  eexists _, s'. split; [exact Hrun | exact Hid].
Defined.

Lemma image_create_then_gone_witness :
  ∃ e s',
    resourceAwsImageBuilderImageCreate vanishingClient (stateOf newImageData)
    = Returned (Some e) s'
    ∧ rdId (st_d s') = exampleImageArn.
Proof.
  edestruct (image_create_then_gone vanishingClient (stateOf newImageData))
    as (r & s' & Hrun & Hnew & _);
    [reflexivity | reflexivity | reflexivity | reflexivity | reflexivity |].
  destruct (Hnew eq_refl) as [-> Hid].
  eexists _, s'. split; [exact Hrun | exact Hid].
Defined.

Lemma read_twice_same_data_witness :
  ∃ s1 s2,
    resourceAwsImageBuilderImageRead availableClient (stateOf storedImageData)
    = Returned None s1
    ∧ resourceAwsImageBuilderImageRead availableClient s1 = Returned None s2
    ∧ st_d s2 = st_d s1.
Proof.
  exact (proj1 (read_twice_same_data availableClient (stateOf storedImageData))
           {| gio_Image := Some exampleImage |} exampleImage eq_refl eq_refl eq_refl).
Defined.

Lemma target_repository_survives_read_witness :
  ∃ d',
    resourceAwsImageBuilderContainerRecipeRead availableClient (stateOf storedRecipeData)
    = Returned None
        (setData d'
           (addCall (GetContainerRecipeCall
                       {| gcri_ContainerRecipeArn := Some exampleRecipeArn |})
              (stateOf storedRecipeData)))
    ∧ rdSet d' !! "target_repository"
      = Some (VList (Some [VMap (Some {[ "repository_name" := VString "repo";
                                         "service" := VString "ECR" ]})])).
Proof.
  apply (target_repository_survives_read availableClient (stateOf storedRecipeData)
           {| gcro_ContainerRecipe := img_ContainerRecipe exampleImage |}
           exampleRecipe
           {[ "repository_name" := VString "repo"; "service" := VString "ECR" ]}
           "repo" "ECR");
    try reflexivity; try discriminate.
  intros k Hk1 Hk2.
  rewrite lookup_insert_ne by congruence.
  rewrite lookup_singleton_ne by congruence. reflexivity.
Defined.

Lemma delete_fails_only_on_api_error_witness :
  ∃ e,
    DeleteImage deniedService [] {| dii_ImageBuildVersionArn := Some exampleImageArn |}
    = Some e
    ∧ errCodeIs e ErrCodeResourceNotFoundException = false.
Proof.
  destruct (delete_fails_only_on_api_error deniedClient (stateOf storedImageData)
              (wrapError ("error deleting Image Builder Image (" ++ exampleImageArn ++ "): ")
                 (awserr "AccessDeniedException" "not allowed"))
              (addCall (DeleteImageCall {| dii_ImageBuildVersionArn := Some exampleImageArn |})
                 (stateOf storedImageData)))
    as [Himage _].
  destruct (Himage eq_refl) as (e & Hcall & Hcode & _).
  exists e. split; [exact Hcall | exact Hcode].
Defined.

Lemma create_nil_only_after_read_witness :
  ∃ input s1 out,
    containerRecipeCreateInput (H := exampleCollaborators) (stateOf newRecipeData)
    = Returned input s1
    ∧ CreateContainerRecipe availableService [] input = (Some out, None).
Proof.
  assert (Hrun : ∃ s', resourceAwsImageBuilderContainerRecipeCreate availableClient
                         (stateOf newRecipeData) = Returned None s').
  { vm_compute. eexists. reflexivity. }
  destruct Hrun as [s' Hrun].
  destruct (create_nil_only_after_read availableClient (stateOf newRecipeData) s')
    as [_ Hrecipe].
  destruct (Hrecipe Hrun) as (input & s1 & out & Hin & Hcreate & _).
  exists input, s1, out. split; [exact Hin | exact Hcreate].
Defined.

Lemma container_recipe_request_never_carries_witness :
  ∃ input,
    containerRecipeCreateInput (H := exampleCollaborators) (stateOf newRecipeData)
    = Returned input (nextId (stateOf newRecipeData))
    ∧ ccri_KmsKeyId input = None
    ∧ ccri_ClientToken input = Some "terraform-0".
Proof.
  eexists. split; [reflexivity |].
  edestruct (container_recipe_request_never_carries (H := exampleCollaborators)
               (stateOf newRecipeData)) as (_ & _ & Hkms & _ & Htoken & _);
    [reflexivity |].
  split; [exact Hkms | exact Htoken].
Defined.

Lemma update_then_read_witness :
  ∃ s',
    resourceAwsImageBuilderImageUpdate availableClient (stateOf storedImageData)
    = Returned None s'
    ∧ List.length (st_calls s') = 2
    ∧ rdId (st_d s') = exampleImageArn.
Proof.
  edestruct (proj1 (update_then_read availableClient (stateOf storedImageData)
                      (λ _, eq_refl)))
    as (s' & Hrun & Hcalls & Hid & _); [reflexivity | reflexivity |].
  exists s'. split; [exact Hrun |]. split; [rewrite Hcalls; reflexivity | exact Hid].
Defined.

